(** * PreResNet (pytorch/models/preresnet.py): topology builder and unit wiring

    The Python module builds a pre-activation residual network out of
    [torch.nn] layers.  This development embeds

    - the layer descriptors that [torch.nn] constructors produce (their
      hyper-parameters and the shapes of their trainable parameters);
    - the classes of the module ([PreResConv] ... [PreResNet]) with their
      [__init__] and [forward];
    - the factory [get_preresnet] with its exceptions, and the named presets;
    - the parameter count computed by the module's self-test.

    Python integers are [Z]; Python floats are IEEE binary64 values, taken
    from [SpecFloat] at precision 53 and maximal exponent 1024. *)

From Stdlib Require Import ZArith Lia Floats.SpecFloat.
From stdpp Require Import base option list strings pretty.

Local Open Scope Z_scope.

(** ** Python runtime: exceptions, floats, [int()] *)

Module Py.

Inductive exn : Type :=
| ValueError (msg : string)
| OverflowError (msg : string)
| TypeError (msg : string).

(** Outcome of a call that may raise. *)
Inductive result (A : Type) : Type :=
| Return (a : A)
| Raise (e : exn).
Arguments Return {A} a.
Arguments Raise {A} e.

#[export] Instance result_ret : MRet result := fun _ a => Return a.
#[export] Instance result_bind : MBind result := fun _ _ f m =>
  match m with
  | Return a => f a
  | Raise e => Raise e
  end.

(** [[f(x) for x in l]]: elements are evaluated left to right and the first
    exception ends the comprehension. *)
Fixpoint comprehension {A B : Type} (f : A -> result B) (l : list A)
  : result (list B) :=
  match l with
  | [] => Return []
  | x :: l' => y ← f x; ys ← comprehension f l'; Return (y :: ys)
  end.

(** [float]: binary64. *)
Definition float : Type := spec_float.
Definition prec : Z := 53.
Definition emax : Z := 1024.

(** The dyadic literal [m * 2^e], rounded to binary64 (exact for the
    literals below). *)
Definition dyadic (m e : Z) : float := binary_normalize prec emax m e false.

Definition float_1_0 : float := dyadic 1 0.
Definition float_0_75 : float := dyadic 3 (-2).
Definition float_0_5 : float := dyadic 1 (-1).
Definition float_0_25 : float := dyadic 1 (-2).

(** [float(n)] for an integer [n]: correctly rounded, [OverflowError] when
    [n] is beyond the binary64 range. *)
Definition float_of_int (n : Z) : result float :=
  match binary_normalize prec emax n 0 false with
  | S754_infinity _ => Raise (OverflowError "int too large to convert to float")
  | f => Return f
  end.

Definition float_mul (x y : float) : float := SFmul prec emax x y.

(** [x != y] on floats (true when either is NaN). *)
Definition float_ne (x y : float) : bool := negb (SFeqb x y).

(** [n * x] with [n] an integer and [x] a float. *)
Definition int_mul_float (n : Z) (x : float) : result float :=
  f ← float_of_int n; Return (float_mul f x).

(** [int(x)] for a float [x]: truncation toward zero; infinities and NaN
    raise. *)
Definition int_of_float (x : float) : result Z :=
  match x with
  | S754_zero _ => Return 0
  | S754_infinity _ =>
      Raise (OverflowError "cannot convert float infinity to integer")
  | S754_nan => Raise (ValueError "cannot convert float NaN to integer")
  | S754_finite s m e =>
      Return (cond_Zopp s
                (if 0 <=? e then Z.pos m * 2 ^ e
                 else Z.pos m / 2 ^ (- e)))
  end.

(** [[x] * n]: list repetition; a non-positive count gives the empty
    list. *)
Definition list_repeat {A : Type} (x : A) (n : Z) : list A :=
  replicate (Z.to_nat n) x.

(** [enumerate(l)]. *)
Definition enumerate {A : Type} (l : list A) : list (nat * A) :=
  zip (seq 0 (length l)) l.

End Py.
Import Py.

(** ** [torch.nn] layers

    A layer is described by the hyper-parameters its constructor records.
    [parameters] lists the shapes of its trainable tensors in registration
    order ([requires_grad] is true for each of them). *)

Definition shape : Type := list Z.

Module Conv2d.
Record t : Type := mk {
  in_channels : Z;
  out_channels : Z;
  kernel_size : Z;
  stride : Z;
  padding : Z;
  bias : bool
}.

(** weight: (out_channels, in_channels, k, k); bias: (out_channels) *)
Definition parameters (m : t) : list shape :=
  [out_channels m; in_channels m; kernel_size m; kernel_size m]
  :: (if bias m then [[out_channels m]] else []).
End Conv2d.

Module BatchNorm2d.
Record t : Type := mk { num_features : Z }.

(** affine weight and bias; the running statistics are buffers *)
Definition parameters (m : t) : list shape :=
  [[num_features m]; [num_features m]].
End BatchNorm2d.

Module ReLU.
Record t : Type := mk { inplace : bool }.
Definition parameters (m : t) : list shape := [].
End ReLU.

Module MaxPool2d.
Record t : Type := mk { kernel_size : Z; stride : Z; padding : Z }.
Definition parameters (m : t) : list shape := [].
End MaxPool2d.

Module AvgPool2d.
Record t : Type := mk { kernel_size : Z; stride : Z }.
Definition parameters (m : t) : list shape := [].
End AvgPool2d.

Module Linear.
Record t : Type := mk { in_features : Z; out_features : Z }.

(** weight: (out_features, in_features); bias: (out_features) *)
Definition parameters (m : t) : list shape :=
  [[out_features m; in_features m]; [out_features m]].
End Linear.

(** ** Tensors

    The numerical kernels belong to the tensor library: what a layer
    computes is an arbitrary function of its descriptor and of the input
    value.  The weights a layer holds are not represented, and nothing below
    depends on them.  Tensors are objects: a reference names a cell of the
    store, an out-of-place operation allocates a new cell, and
    [ReLU(inplace=True)] overwrites the cell it is given. *)

Class TensorOps : Type := {
  tensor : Type;
  conv2d : Conv2d.t -> tensor -> tensor;
  batch_norm : BatchNorm2d.t -> tensor -> tensor;
  relu : tensor -> tensor;
  tensor_add : tensor -> tensor -> tensor
}.

Abbreviation ref := nat.
Abbreviation store := (list tensor).

Section Store.
Context `{TensorOps}.

(** A forward computation threads the store; [None] is a stuck run (a
    dangling reference or a missing attribute). *)
Definition fwd (A : Type) : Type := store -> option (A * store).

#[global] Instance fwd_ret : MRet fwd := fun _ a h => Some (a, h).
#[global] Instance fwd_bind : MBind fwd := fun _ _ f m h =>
  match m h with
  | Some (a, h') => f a h'
  | None => None
  end.

Definition stuck {A : Type} : fwd A := fun _ => None.

Definition load (r : ref) : fwd tensor := fun h =>
  match h !! r with
  | Some v => Some (v, h)
  | None => None
  end.

Definition new (v : tensor) : fwd ref := fun h => Some (length h, h ++ [v]).

Definition overwrite (r : ref) (v : tensor) : fwd unit := fun h =>
  if decide (r < length h)%nat then Some (tt, <[r := v]> h) else None.

Definition Conv2d_forward (m : Conv2d.t) (x : ref) : fwd ref :=
  v ← load x; new (conv2d m v).

Definition BatchNorm2d_forward (m : BatchNorm2d.t) (x : ref) : fwd ref :=
  v ← load x; new (batch_norm m v).

Definition ReLU_forward (m : ReLU.t) (x : ref) : fwd ref :=
  v ← load x;
  if ReLU.inplace m then overwrite x (relu v);; mret x
  else new (relu v).

(** [x + y] on tensors *)
Definition tensor_add_forward (x y : ref) : fwd ref :=
  a ← load x; b ← load y; new (tensor_add a b).

End Store.

(** The operations the whole network needs on top of those of a unit. *)
Class NetOps : Type := {
  net_tensor_ops : TensorOps;
  max_pool2d : MaxPool2d.t -> tensor -> tensor;
  avg_pool2d : AvgPool2d.t -> tensor -> tensor;
  view_rows : tensor -> tensor;
  linear : Linear.t -> tensor -> tensor
}.
#[global] Existing Instance net_tensor_ops.

Section NetStore.
Context `{NetOps}.

Definition MaxPool2d_forward (m : MaxPool2d.t) (x : ref) : fwd ref :=
  v ← load x; new (max_pool2d m v).

Definition AvgPool2d_forward (m : AvgPool2d.t) (x : ref) : fwd ref :=
  v ← load x; new (avg_pool2d m v).

Definition Linear_forward (m : Linear.t) (x : ref) : fwd ref :=
  v ← load x; new (linear m v).

(** [x.view(x.size(0), -1)]: a new tensor object over the storage of [x];
    nothing writes to either of them afterwards. *)
Definition view_forward (x : ref) : fwd ref :=
  v ← load x; new (view_rows v).

End NetStore.

(** [nn.Sequential.forward]: the children in order, each on the result of
    the one before; without children the input itself is returned. *)
Fixpoint Sequential_forward `{TensorOps} {M : Type}
  (forward : M -> ref -> fwd ref) (modules : list M) (x : ref) : fwd ref :=
  match modules with
  | [] => mret x
  | m :: modules' =>
      x ← forward m x; Sequential_forward forward modules' x
  end.

(** ** The classes of preresnet.py *)

Module PreResConv.
Record t : Type := mk {
  bn : BatchNorm2d.t;
  activ : ReLU.t;
  conv : Conv2d.t
}.

Definition __init__ (in_channels out_channels kernel_size stride padding : Z)
  : t :=
  {| bn := BatchNorm2d.mk in_channels;
     activ := ReLU.mk true;
     conv := Conv2d.mk in_channels out_channels kernel_size stride padding
               false |}.

Definition forward `{TensorOps} (self : t) (x : ref) : fwd (ref * ref) :=
  x ← BatchNorm2d_forward (bn self) x;
  x ← ReLU_forward (activ self) x;
  let x_pre_activ := x in
  x ← Conv2d_forward (conv self) x;
  mret (x, x_pre_activ).

Definition parameters (self : t) : list shape :=
  BatchNorm2d.parameters (bn self) ++ ReLU.parameters (activ self)
  ++ Conv2d.parameters (conv self).

(** The [nn.Conv2d] instances [named_modules] meets, in its order. *)
Definition conv2d_modules (self : t) : list Conv2d.t := [conv self].
End PreResConv.

Definition conv1x1 (in_channels out_channels stride : Z) : Conv2d.t :=
  Conv2d.mk in_channels out_channels 1 stride 0 false.

Definition preres_conv1x1 (in_channels out_channels stride : Z)
  : PreResConv.t :=
  PreResConv.__init__ in_channels out_channels 1 stride 0.

Definition preres_conv3x3 (in_channels out_channels stride : Z)
  : PreResConv.t :=
  PreResConv.__init__ in_channels out_channels 3 stride 1.

Module PreResBlock.
Record t : Type := mk {
  conv1 : PreResConv.t;
  conv2 : PreResConv.t
}.

Definition __init__ (in_channels out_channels stride : Z) : t :=
  {| conv1 := preres_conv3x3 in_channels out_channels stride;
     conv2 := preres_conv3x3 out_channels out_channels 1 |}.

Definition forward `{TensorOps} (self : t) (x : ref) : fwd (ref * ref) :=
  '(x, x_pre_activ) ← PreResConv.forward (conv1 self) x;
  '(x, _) ← PreResConv.forward (conv2 self) x;
  mret (x, x_pre_activ).

Definition parameters (self : t) : list shape :=
  PreResConv.parameters (conv1 self) ++ PreResConv.parameters (conv2 self).

Definition conv2d_modules (self : t) : list Conv2d.t :=
  PreResConv.conv2d_modules (conv1 self)
  ++ PreResConv.conv2d_modules (conv2 self).
End PreResBlock.

Module PreResBottleneck.
Record t : Type := mk {
  conv1 : PreResConv.t;
  conv2 : PreResConv.t;
  conv3 : PreResConv.t
}.

Definition __init__ (in_channels out_channels stride : Z)
  (conv1_stride : bool) : t :=
  let mid_channels := out_channels / 4 in
  {| conv1 := preres_conv1x1 in_channels mid_channels
                (if conv1_stride then stride else 1);
     conv2 := preres_conv3x3 mid_channels mid_channels
                (if conv1_stride then 1 else stride);
     conv3 := preres_conv1x1 mid_channels out_channels 1 |}.

Definition forward `{TensorOps} (self : t) (x : ref) : fwd (ref * ref) :=
  '(x, x_pre_activ) ← PreResConv.forward (conv1 self) x;
  '(x, _) ← PreResConv.forward (conv2 self) x;
  '(x, _) ← PreResConv.forward (conv3 self) x;
  mret (x, x_pre_activ).

Definition parameters (self : t) : list shape :=
  PreResConv.parameters (conv1 self) ++ PreResConv.parameters (conv2 self)
  ++ PreResConv.parameters (conv3 self).

Definition conv2d_modules (self : t) : list Conv2d.t :=
  PreResConv.conv2d_modules (conv1 self)
  ++ PreResConv.conv2d_modules (conv2 self)
  ++ PreResConv.conv2d_modules (conv3 self).
End PreResBottleneck.

Module PreResUnit.
(** [self.body] holds one of the two block classes. *)
Inductive body_t : Type :=
| Block (b : PreResBlock.t)
| Bottleneck (b : PreResBottleneck.t).

(** [identity_conv] is an attribute only when [resize_identity] holds. *)
Record t : Type := mk {
  resize_identity : bool;
  body : body_t;
  identity_conv : option Conv2d.t
}.

Definition __init__ (in_channels out_channels stride : Z)
  (bottleneck conv1_stride : bool) : t :=
  let resize_identity :=
    negb (in_channels =? out_channels) || negb (stride =? 1) in
  {| resize_identity := resize_identity;
     body :=
       if bottleneck then
         Bottleneck (PreResBottleneck.__init__ in_channels out_channels stride
                       conv1_stride)
       else Block (PreResBlock.__init__ in_channels out_channels stride);
     identity_conv :=
       if resize_identity then Some (conv1x1 in_channels out_channels stride)
       else None |}.

Definition body_forward `{TensorOps} (b : body_t) (x : ref)
  : fwd (ref * ref) :=
  match b with
  | Block b => PreResBlock.forward b x
  | Bottleneck b => PreResBottleneck.forward b x
  end.

Definition forward `{TensorOps} (self : t) (x : ref) : fwd ref :=
  let identity := x in
  '(x, x_pre_activ) ← body_forward (body self) x;
  identity ←
    (if resize_identity self then
       match identity_conv self with
       | Some identity_conv => Conv2d_forward identity_conv x_pre_activ
       | None => stuck
       end
     else mret identity);
  tensor_add_forward x identity.

Definition body_parameters (b : body_t) : list shape :=
  match b with
  | Block b => PreResBlock.parameters b
  | Bottleneck b => PreResBottleneck.parameters b
  end.

Definition parameters (self : t) : list shape :=
  body_parameters (body self)
  ++ match identity_conv self with
     | Some identity_conv => Conv2d.parameters identity_conv
     | None => []
     end.

Definition conv2d_modules (self : t) : list Conv2d.t :=
  match body self with
  | Block b => PreResBlock.conv2d_modules b
  | Bottleneck b => PreResBottleneck.conv2d_modules b
  end
  ++ match identity_conv self with
     | Some identity_conv => [identity_conv]
     | None => []
     end.
End PreResUnit.

Module PreResInitBlock.
Record t : Type := mk {
  conv : Conv2d.t;
  bn : BatchNorm2d.t;
  activ : ReLU.t;
  pool : MaxPool2d.t
}.

Definition __init__ (in_channels out_channels : Z) : t :=
  {| conv := Conv2d.mk in_channels out_channels 7 2 3 false;
     bn := BatchNorm2d.mk out_channels;
     activ := ReLU.mk true;
     pool := MaxPool2d.mk 3 2 1 |}.

Definition parameters (self : t) : list shape :=
  Conv2d.parameters (conv self) ++ BatchNorm2d.parameters (bn self)
  ++ ReLU.parameters (activ self) ++ MaxPool2d.parameters (pool self).

Definition forward `{NetOps} (self : t) (x : ref) : fwd ref :=
  x ← Conv2d_forward (conv self) x;
  x ← BatchNorm2d_forward (bn self) x;
  x ← ReLU_forward (activ self) x;
  x ← MaxPool2d_forward (pool self) x;
  mret x.

Definition conv2d_modules (self : t) : list Conv2d.t := [conv self].
End PreResInitBlock.

Module PreResActivation.
Record t : Type := mk {
  bn : BatchNorm2d.t;
  activ : ReLU.t
}.

Definition __init__ (in_channels : Z) : t :=
  {| bn := BatchNorm2d.mk in_channels; activ := ReLU.mk true |}.

Definition parameters (self : t) : list shape :=
  BatchNorm2d.parameters (bn self) ++ ReLU.parameters (activ self).

Definition forward `{TensorOps} (self : t) (x : ref) : fwd ref :=
  x ← BatchNorm2d_forward (bn self) x;
  x ← ReLU_forward (activ self) x;
  mret x.
End PreResActivation.

Module PreResNet.
(** [self.features]: the children of the [nn.Sequential] in the order they
    are added.  Child [i] of [stages] is registered as "stage{i+1}" and
    child [j] of a stage as "unit{j+1}". *)
Record features_t : Type := mk_features {
  init_block : PreResInitBlock.t;
  stages : list (list PreResUnit.t);
  post_activ : PreResActivation.t;
  final_pool : AvgPool2d.t
}.

Record t : Type := mk {
  features : features_t;
  output : Linear.t
}.

(** Body of [for j, out_channels in enumerate(channels_per_stage)]; the
    loop state is the stage built so far and [in_channels]. *)
Definition unit_loop (i : nat) (bottleneck conv1_stride : bool)
  (st : list PreResUnit.t * Z) (it : nat * Z) : list PreResUnit.t * Z :=
  let '(stage, in_channels) := st in
  let '(j, out_channels) := it in
  let stride := if (i =? 0)%nat || negb (j =? 0)%nat then 1 else 2 in
  (stage ++ [PreResUnit.__init__ in_channels out_channels stride bottleneck
               conv1_stride],
   out_channels).

(** Body of [for i, channels_per_stage in enumerate(channels)]. *)
Definition stage_loop (bottleneck conv1_stride : bool)
  (st : list (list PreResUnit.t) * Z) (it : nat * list Z)
  : list (list PreResUnit.t) * Z :=
  let '(stages, in_channels) := st in
  let '(i, channels_per_stage) := it in
  let '(stage, in_channels) :=
    fold_left (unit_loop i bottleneck conv1_stride)
      (enumerate channels_per_stage) ([], in_channels) in
  (stages ++ [stage], in_channels).

(** [in_channels] defaults to 3 and [num_classes] to 1000 at the call
    sites.  [_init_params] only draws the initial weight values. *)
Definition __init__ (channels : list (list Z)) (init_block_channels : Z)
  (bottleneck conv1_stride : bool) (in_channels num_classes : Z) : t :=
  let init_block := PreResInitBlock.__init__ in_channels init_block_channels in
  let in_channels := init_block_channels in
  let '(stages, in_channels) :=
    fold_left (stage_loop bottleneck conv1_stride) (enumerate channels)
      ([], in_channels) in
  {| features :=
       {| init_block := init_block;
          stages := stages;
          post_activ := PreResActivation.__init__ in_channels;
          final_pool := AvgPool2d.mk 7 1 |};
     output := Linear.mk in_channels num_classes |}.

Definition parameters (self : t) : list shape :=
  PreResInitBlock.parameters (init_block (features self))
  ++ concat (map (fun stage => concat (map PreResUnit.parameters stage))
               (stages (features self)))
  ++ PreResActivation.parameters (post_activ (features self))
  ++ AvgPool2d.parameters (final_pool (features self))
  ++ Linear.parameters (output self).

(** [self.features(x)]: init block, stages, post-activation, final pool. *)
Definition features_forward `{NetOps} (self : features_t) (x : ref)
  : fwd ref :=
  x ← PreResInitBlock.forward (init_block self) x;
  x ← Sequential_forward (Sequential_forward PreResUnit.forward)
        (stages self) x;
  x ← PreResActivation.forward (post_activ self) x;
  AvgPool2d_forward (final_pool self) x.

Definition forward `{NetOps} (self : t) (x : ref) : fwd ref :=
  x ← features_forward (features self) x;
  x ← view_forward x;
  x ← Linear_forward (output self) x;
  mret x.

Definition conv2d_modules (self : t) : list Conv2d.t :=
  PreResInitBlock.conv2d_modules (init_block (features self))
  ++ concat (map (fun stage => concat (map PreResUnit.conv2d_modules stage))
               (stages (features self))).


End PreResNet.

(** Keyword arguments a caller may pass on to [PreResNet]. *)
Record net_kwargs : Type := mk_net_kwargs {
  kw_in_channels : option Z;
  kw_num_classes : option Z
}.

(** [Raise e]: a statement of [get_preresnet] raises [e] before
    [PreResNet(...)] is constructed.  [Return net]: the function reaches
    [return PreResNet(...)] with the arguments [net] is built from; the
    layer constructors of the tensor library are taken to accept them. *)
Definition get_preresnet (blocks : Z) (conv1_stride : bool)
  (width_scale : float) (pretrained : bool) (kwargs : net_kwargs)
  : result PreResNet.t :=
  layers ←
    (if blocks =? 10 then Return [1; 1; 1; 1]
     else if blocks =? 12 then Return [2; 1; 1; 1]
     else if blocks =? 14 then Return [2; 2; 1; 1]
     else if blocks =? 16 then Return [2; 2; 2; 1]
     else if blocks =? 18 then Return [2; 2; 2; 2]
     else if blocks =? 34 then Return [3; 4; 6; 3]
     else if blocks =? 50 then Return [3; 4; 6; 3]
     else if blocks =? 101 then Return [3; 4; 23; 3]
     else if blocks =? 152 then Return [3; 8; 36; 3]
     else if blocks =? 200 then Return [3; 24; 36; 3]
     else Raise (ValueError ("Unsupported ResNet with number of blocks: "
                             +:+ pretty blocks)));
  let init_block_channels := 64 in
  let '(channels_per_layers, bottleneck) :=
    if blocks <? 50 then ([64; 128; 256; 512], false)
    else ([256; 512; 1024; 2048], true) in
  let channels :=
    map (fun '(ci, li) => list_repeat ci li) (zip channels_per_layers layers) in
  '(channels, init_block_channels) ←
    (if float_ne width_scale float_1_0 then
       channels ←
         comprehension
           (comprehension
              (fun cij => x ← int_mul_float cij width_scale; int_of_float x))
           channels;
       init_block_channels ←
         (x ← int_mul_float init_block_channels width_scale; int_of_float x);
       Return (channels, init_block_channels)
     else Return (channels, init_block_channels));
  if pretrained then Raise (ValueError "Pretrained model is not supported")
  else
    Return (PreResNet.__init__ channels init_block_channels bottleneck
              conv1_stride
              (default 3 (kw_in_channels kwargs))
              (default 1000 (kw_num_classes kwargs))).

(** Keyword arguments of a preset function: those [get_preresnet] names and
    those it passes on. *)
Record kwargs : Type := mk_kwargs {
  kw_conv1_stride : option bool;
  kw_width_scale : option float;
  kw_pretrained : option bool;
  kw_net : net_kwargs
}.

Definition no_kwargs : kwargs :=
  {| kw_conv1_stride := None; kw_width_scale := None; kw_pretrained := None;
     kw_net := {| kw_in_channels := None; kw_num_classes := None |} |}.

(** A keyword written at the call and present in [**kwargs] as well is a
    [TypeError] (the interpreter prefixes the message with the callee). *)
Definition keyword {A : Type} (name : string) (written given : option A)
  : result (option A) :=
  match written, given with
  | Some _, Some _ =>
      Raise (TypeError ("got multiple values for keyword argument '"
                        +:+ name +:+ "'"))
  | Some v, None => Return (Some v)
  | None, given => Return given
  end.

(** [get_preresnet(blocks=..., conv1_stride=..., width_scale=..., **kwargs)]
    where the last two may be left unwritten. *)
Definition call_get_preresnet (blocks : Z) (conv1_stride : option bool)
  (width_scale : option float) (kwargs : kwargs) : result PreResNet.t :=
  conv1_stride ← keyword "conv1_stride" conv1_stride (kw_conv1_stride kwargs);
  width_scale ← keyword "width_scale" width_scale (kw_width_scale kwargs);
  get_preresnet blocks (default true conv1_stride)
    (default float_1_0 width_scale) (default false (kw_pretrained kwargs))
    (kw_net kwargs).

Definition preresnet10 := call_get_preresnet 10 None None.
Definition preresnet12 := call_get_preresnet 12 None None.
Definition preresnet14 := call_get_preresnet 14 None None.
Definition preresnet16 := call_get_preresnet 16 None None.
Definition preresnet18 := call_get_preresnet 18 None None.
Definition preresnet18_w3d4 := call_get_preresnet 18 None (Some float_0_75).
Definition preresnet18_wd2 := call_get_preresnet 18 None (Some float_0_5).
Definition preresnet18_wd4 := call_get_preresnet 18 None (Some float_0_25).
Definition preresnet34 := call_get_preresnet 34 None None.
Definition preresnet50 := call_get_preresnet 50 None None.
Definition preresnet50b := call_get_preresnet 50 (Some false) None.
Definition preresnet101 := call_get_preresnet 101 None None.
Definition preresnet101b := call_get_preresnet 101 (Some false) None.
Definition preresnet152 := call_get_preresnet 152 None None.
Definition preresnet152b := call_get_preresnet 152 (Some false) None.
Definition preresnet200 := call_get_preresnet 200 None None.
Definition preresnet200b := call_get_preresnet 200 (Some false) None.

(** The count made by [_test]: [np.prod(param.size())] summed over the
    trainable parameters. *)
Definition np_prod (s : shape) : Z := fold_left Z.mul s 1.

Definition weight_count (net : PreResNet.t) : Z :=
  fold_left (fun weight_count param => weight_count + np_prod param)
    (PreResNet.parameters net) 0.

(** The loop body of [_test] up to the count: [net = model()], then the sum
    over [net.parameters()]. *)
Definition test_weight_count (model : kwargs -> result PreResNet.t)
  : result Z :=
  net ← model no_kwargs; Return (weight_count net).

(** ** Vocabulary of the specification *)

(** The two failures of the factory, as the specification names them. *)
Definition UnsupportedConfiguration (blocks : Z) : exn :=
  ValueError ("Unsupported ResNet with number of blocks: " +:+ pretty blocks).

Definition NotSupported : exn :=
  ValueError "Pretrained model is not supported".

(** The lookup table from block count to units per stage, as the
    specification lists it. *)
Definition layers_table : list (Z * list Z) :=
  [(10, [1; 1; 1; 1]); (12, [2; 1; 1; 1]); (14, [2; 2; 1; 1]);
   (16, [2; 2; 2; 1]); (18, [2; 2; 2; 2]); (34, [3; 4; 6; 3]);
   (50, [3; 4; 6; 3]); (101, [3; 4; 23; 3]); (152, [3; 8; 36; 3]);
   (200, [3; 24; 36; 3])].

Definition base_widths (blocks : Z) : list Z :=
  if blocks <? 50 then [64; 128; 256; 512] else [256; 512; 1024; 2048].

(** [int(c * width_scale)] *)
Definition scaled_width (width_scale : float) (c : Z) : result Z :=
  x ← int_mul_float c width_scale; int_of_float x.

(** The exact value of a finite float as a fraction with a positive
    denominator. *)
Definition float_fraction (x : float) : option (Z * Z) :=
  match x with
  | S754_zero _ => Some (0, 1)
  | S754_finite s m e =>
      Some (cond_Zopp s (Z.pos m * 2 ^ Z.max e 0), 2 ^ Z.max (- e) 0)
  | _ => None
  end.

(** The preset functions of the module. *)
Definition presets : list (kwargs -> result PreResNet.t) :=
  [preresnet10; preresnet12; preresnet14; preresnet16; preresnet18;
   preresnet18_w3d4; preresnet18_wd2; preresnet18_wd4; preresnet34;
   preresnet50; preresnet50b; preresnet101; preresnet101b; preresnet152;
   preresnet152b; preresnet200; preresnet200b].

(** ** What a built unit shows of its constructor arguments *)

Definition body_convs (b : PreResUnit.body_t) : list PreResConv.t :=
  match b with
  | PreResUnit.Block b => [PreResBlock.conv1 b; PreResBlock.conv2 b]
  | PreResUnit.Bottleneck b =>
      [PreResBottleneck.conv1 b; PreResBottleneck.conv2 b;
       PreResBottleneck.conv3 b]
  end.

Definition body_first_conv (b : PreResUnit.body_t) : PreResConv.t :=
  match b with
  | PreResUnit.Block b => PreResBlock.conv1 b
  | PreResUnit.Bottleneck b => PreResBottleneck.conv1 b
  end.

Definition body_last_conv (b : PreResUnit.body_t) : PreResConv.t :=
  match b with
  | PreResUnit.Block b => PreResBlock.conv2 b
  | PreResUnit.Bottleneck b => PreResBottleneck.conv3 b
  end.

Definition unit_in_channels (u : PreResUnit.t) : Z :=
  Conv2d.in_channels (PreResConv.conv (body_first_conv (PreResUnit.body u))).

Definition unit_out_channels (u : PreResUnit.t) : Z :=
  Conv2d.out_channels (PreResConv.conv (body_last_conv (PreResUnit.body u))).

(** The factor by which the body of a unit reduces the spatial resolution:
    the product of the strides of its convolutions. *)
Definition unit_stride (u : PreResUnit.t) : Z :=
  fold_right Z.mul 1
    (map (fun c => Conv2d.stride (PreResConv.conv c))
       (body_convs (PreResUnit.body u))).

Definition is_bottleneck (u : PreResUnit.t) : bool :=
  match PreResUnit.body u with
  | PreResUnit.Block _ => false
  | PreResUnit.Bottleneck _ => true
  end.

(** ** Closed forms of the construction loops *)

Definition unit_stride_at (i j : nat) : Z :=
  if (i =? 0)%nat || negb (j =? 0)%nat then 1 else 2.

Fixpoint stage_units (bottleneck conv1_stride : bool) (i j : nat)
  (in_channels : Z) (channels_per_stage : list Z) : list PreResUnit.t :=
  match channels_per_stage with
  | [] => []
  | out_channels :: rest =>
      PreResUnit.__init__ in_channels out_channels (unit_stride_at i j)
        bottleneck conv1_stride
      :: stage_units bottleneck conv1_stride i (S j) out_channels rest
  end.

Fixpoint net_stages (bottleneck conv1_stride : bool) (i : nat)
  (in_channels : Z) (channels : list (list Z)) : list (list PreResUnit.t) :=
  match channels with
  | [] => []
  | channels_per_stage :: rest =>
      stage_units bottleneck conv1_stride i 0 in_channels channels_per_stage
      :: net_stages bottleneck conv1_stride (S i)
           (List.last channels_per_stage in_channels) rest
  end.

(** The value of [in_channels] when the stage loop ends. *)
Definition net_end (in_channels : Z) (channels : list (list Z)) : Z :=
  fold_left (fun c channels_per_stage => List.last channels_per_stage c)
    channels in_channels.

(** Each unit takes what the one before it gives, starting from [c]. *)
Fixpoint chained (c : Z) (us : list PreResUnit.t) : Prop :=
  match us with
  | [] => True
  | u :: us' => unit_in_channels u = c /\ chained (unit_out_channels u) us'
  end.

Definition units_end (c : Z) (us : list PreResUnit.t) : Z :=
  List.last (map unit_out_channels us) c.

(** ** Values computed by a forward pass *)

Section Values.
Context {T : TensorOps}.

(** The normalized and activated tensor a pre-activation convolution
    convolves, and its output. *)
Definition pre_activ_value (m : PreResConv.t) (v : tensor) : tensor :=
  relu (batch_norm (PreResConv.bn m) v).

Definition preres_conv_value (m : PreResConv.t) (v : tensor) : tensor :=
  conv2d (PreResConv.conv m) (pre_activ_value m v).

Definition body_value (b : PreResUnit.body_t) (v : tensor) : tensor :=
  match b with
  | PreResUnit.Block b =>
      preres_conv_value (PreResBlock.conv2 b)
        (preres_conv_value (PreResBlock.conv1 b) v)
  | PreResUnit.Bottleneck b =>
      preres_conv_value (PreResBottleneck.conv3 b)
        (preres_conv_value (PreResBottleneck.conv2 b)
           (preres_conv_value (PreResBottleneck.conv1 b) v))
  end.

Definition body_pre_activ (b : PreResUnit.body_t) (v : tensor) : tensor :=
  pre_activ_value (body_first_conv b) v.

(** [m] runs from [h] without getting stuck, leaves the tensors of [h] as
    they are, and ends in a result and a store that satisfy [Q]. *)
Definition runs {A : Type} (m : fwd A) (h : store) (Q : A -> store -> Prop)
  : Prop :=
  exists a ext, m h = Some (a, h ++ ext) /\ Q a (h ++ ext).
End Values.

(** A toy tensor library over integers, to run forward passes on. *)
Definition Z_tensors : TensorOps :=
  {| tensor := Z;
     conv2d := fun m v => Conv2d.out_channels m * v + Conv2d.stride m;
     batch_norm := fun m v => v - BatchNorm2d.num_features m;
     relu := Z.max 0;
     tensor_add := Z.add |}.

(** ** Values computed by the whole network *)

Section UnitValues.
Context {T : TensorOps}.

(** What [forward] of a unit adds to the body output. *)
Definition identity_value (u : PreResUnit.t) (v : tensor) : tensor :=
  if PreResUnit.resize_identity u then
    match PreResUnit.identity_conv u with
    | Some identity_conv =>
        conv2d identity_conv (body_pre_activ (PreResUnit.body u) v)
    | None => v
    end
  else v.

Definition unit_value (u : PreResUnit.t) (v : tensor) : tensor :=
  tensor_add (body_value (PreResUnit.body u) v) (identity_value u v).

Definition stage_value (stage : list PreResUnit.t) (v : tensor) : tensor :=
  fold_left (fun v u => unit_value u v) stage v.

Definition stages_value (stages : list (list PreResUnit.t)) (v : tensor)
  : tensor :=
  fold_left (fun v stage => stage_value stage v) stages v.

(** A unit whose [forward] finds the attribute it reads. *)
Definition projection_present (u : PreResUnit.t) : Prop :=
  PreResUnit.resize_identity u = true ->
  is_Some (PreResUnit.identity_conv u).
End UnitValues.

Section NetValues.
Context {N : NetOps}.

Definition init_block_value (b : PreResInitBlock.t) (v : tensor) : tensor :=
  max_pool2d (PreResInitBlock.pool b)
    (relu (batch_norm (PreResInitBlock.bn b)
             (conv2d (PreResInitBlock.conv b) v))).

Definition features_value (f : PreResNet.features_t) (v : tensor) : tensor :=
  avg_pool2d (PreResNet.final_pool f)
    (relu (batch_norm (PreResActivation.bn (PreResNet.post_activ f))
             (stages_value (PreResNet.stages f)
                (init_block_value (PreResNet.init_block f) v)))).

Definition net_value (net : PreResNet.t) (v : tensor) : tensor :=
  linear (PreResNet.output net)
    (view_rows (features_value (PreResNet.features net) v)).
End NetValues.

(** ** Shapes

    The shape rules of the tensor library, as an instance of the
    operations: a tensor is its shape, [None] once an operation has refused
    its input.  A window of size [k], stride [s] and padding [p] turns an
    extent [n] into [floor((n + 2p - k) / s) + 1]; addition is taken to
    need equal shapes.  The rules look at channel counts and windows only:
    they do not refuse an empty batch, a channel count that is not
    positive, or a batch norm given a single value per channel, which the
    library does; a statement that a shape is accepted carries these
    conditions as hypotheses. *)

Definition window_out (n k s p : Z) : option Z :=
  if (0 <? s) && (k <=? n + 2 * p) then Some ((n + 2 * p - k) / s + 1)
  else None.

Definition shape_conv2d (m : Conv2d.t) (x : option shape) : option shape :=
  match x with
  | Some [n; c; h; w] =>
      if c =? Conv2d.in_channels m then
        h' ← window_out h (Conv2d.kernel_size m) (Conv2d.stride m)
               (Conv2d.padding m);
        w' ← window_out w (Conv2d.kernel_size m) (Conv2d.stride m)
               (Conv2d.padding m);
        Some [n; Conv2d.out_channels m; h'; w']
      else None
  | _ => None
  end.

Definition shape_batch_norm (m : BatchNorm2d.t) (x : option shape)
  : option shape :=
  match x with
  | Some [n; c; h; w] =>
      if c =? BatchNorm2d.num_features m then x else None
  | _ => None
  end.

Definition shape_add (x y : option shape) : option shape :=
  match x, y with
  | Some a, Some b => if decide (a = b) then Some a else None
  | _, _ => None
  end.

Definition shape_max_pool2d (m : MaxPool2d.t) (x : option shape)
  : option shape :=
  match x with
  | Some [n; c; h; w] =>
      h' ← window_out h (MaxPool2d.kernel_size m) (MaxPool2d.stride m)
             (MaxPool2d.padding m);
      w' ← window_out w (MaxPool2d.kernel_size m) (MaxPool2d.stride m)
             (MaxPool2d.padding m);
      Some [n; c; h'; w']
  | _ => None
  end.

Definition shape_avg_pool2d (m : AvgPool2d.t) (x : option shape)
  : option shape :=
  match x with
  | Some [n; c; h; w] =>
      h' ← window_out h (AvgPool2d.kernel_size m) (AvgPool2d.stride m) 0;
      w' ← window_out w (AvgPool2d.kernel_size m) (AvgPool2d.stride m) 0;
      Some [n; c; h'; w']
  | _ => None
  end.

Definition shape_view_rows (x : option shape) : option shape :=
  match x with
  | Some (n :: rest) => Some [n; fold_right Z.mul 1 rest]
  | _ => None
  end.

Definition shape_linear (m : Linear.t) (x : option shape) : option shape :=
  match x with
  | Some [n; f] =>
      if f =? Linear.in_features m then Some [n; Linear.out_features m]
      else None
  | _ => None
  end.

Definition shape_tensors : TensorOps :=
  {| tensor := option shape;
     conv2d := shape_conv2d;
     batch_norm := shape_batch_norm;
     relu := fun x => x;
     tensor_add := shape_add |}.

Definition shape_ops : NetOps :=
  {| net_tensor_ops := shape_tensors;
     max_pool2d := shape_max_pool2d;
     avg_pool2d := shape_avg_pool2d;
     view_rows := shape_view_rows;
     linear := shape_linear |}.

(** The extent a stride-[s] unit leaves of an extent [n]. *)
Definition strided (s n : Z) : Z := (n - 1) / s + 1.

(** The extent stage [i] leaves: halved, rounding up, by its first unit
    when it has one and is not the first stage. *)
Definition stage_extent (i : nat) (channels_per_stage : list Z) (e : Z) : Z :=
  match channels_per_stage, i with
  | [], _ => e
  | _ :: _, O => e
  | _ :: _, S _ => strided 2 e
  end.

Fixpoint stages_extent (i : nat) (channels : list (list Z)) (e : Z) : Z :=
  match channels with
  | [] => e
  | channels_per_stage :: rest =>
      stages_extent (S i) rest (stage_extent i channels_per_stage e)
  end.

(** * Properties *)

(** ** The forward pass of a unit *)

Section StoreLemmas.
Context {T : TensorOps}.

Lemma runs_bind {A B : Type} (m : fwd A) (f : A -> fwd B) h Q :
  runs m h (fun a h1 => runs (f a) h1 Q) -> runs (m ≫= f) h Q.
Proof.
  intros (a & ext1 & Hm & b & ext2 & Hf & HQ).
  exists b, (ext1 ++ ext2). unfold mbind, fwd_bind. rewrite Hm.
  rewrite app_assoc. auto.
Qed.

Lemma runs_ret {A : Type} (a : A) h (Q : A -> store -> Prop) :
  Q a h -> runs (mret a) h Q.
Proof. intros HQ. exists a, []. rewrite app_nil_r. auto. Qed.

Lemma runs_weaken {A : Type} (m : fwd A) h (P Q : A -> store -> Prop) :
  runs m h P -> (forall a ext, P a (h ++ ext) -> Q a (h ++ ext)) -> runs m h Q.
Proof. intros (a & ext & Hm & HP) HPQ. exists a, ext. auto. Qed.

Lemma lookup_new (h : store) v : (h ++ [v]) !! length h = Some v.
Proof. apply list_lookup_middle. reflexivity. Qed.

Lemma overwrite_new (h : store) v w : <[length h := w]> (h ++ [v]) = h ++ [w].
Proof.
  rewrite insert_app_r_alt by lia. rewrite Nat.sub_diag. reflexivity.
Qed.

Lemma runs_new v h : runs (new v) h (fun r h' => h' !! r = Some v).
Proof. exists (length h), [v]. split; [reflexivity | apply lookup_new]. Qed.

Lemma runs_Conv2d m x h v :
  h !! x = Some v ->
  runs (Conv2d_forward m x) h (fun y h' => h' !! y = Some (conv2d m v)).
Proof.
  intros Hx. unfold Conv2d_forward, mbind, fwd_bind, load.
  destruct (runs_new (conv2d m v) h) as (r & ext & Hn & Hr).
  exists r, ext. rewrite Hx. auto.
Qed.

Lemma runs_add x y h a b :
  h !! x = Some a -> h !! y = Some b ->
  runs (tensor_add_forward x y) h
    (fun z h' => h' !! z = Some (tensor_add a b)).
Proof.
  intros Hx Hy. unfold tensor_add_forward, mbind, fwd_bind, load.
  destruct (runs_new (tensor_add a b) h) as (r & ext & Hn & Hr).
  exists r, ext. rewrite Hx, Hy. auto.
Qed.

(** Normalization allocates, so the in-place activation overwrites a cell
    that did not exist before the call: the input is never touched. *)
Lemma runs_PreResConv m x h v :
  h !! x = Some v ->
  runs (PreResConv.forward m x) h
    (fun '(y, p) h' =>
       h' !! y = Some (preres_conv_value m v)
       /\ h' !! p = Some (pre_activ_value m v)).
Proof.
  intros Hx.
  unfold runs, PreResConv.forward, preres_conv_value, pre_activ_value.
  unfold BatchNorm2d_forward, ReLU_forward, Conv2d_forward.
  unfold mbind, fwd_bind, mret, fwd_ret, load, new, overwrite.
  rewrite Hx, lookup_new.
  set (b := batch_norm (PreResConv.bn m) v).
  set (c := conv2d (PreResConv.conv m) (relu b)).
  destruct (ReLU.inplace (PreResConv.activ m)).
  - destruct (decide _) as [_|Hn];
      [|rewrite length_app in Hn; simpl in Hn; lia].
    rewrite overwrite_new, lookup_new.
    exists (length (h ++ [relu b]), length h), [relu b; c].
    replace (h ++ [relu b; c]) with ((h ++ [relu b]) ++ [c])
      by (rewrite <- app_assoc; reflexivity).
    split; [reflexivity|]. split; [apply lookup_new|].
    apply lookup_app_l_Some, lookup_new.
  - rewrite lookup_new.
    exists (length ((h ++ [b]) ++ [relu b]), length (h ++ [b])),
      [b; relu b; c].
    replace (h ++ [b; relu b; c]) with (((h ++ [b]) ++ [relu b]) ++ [c])
      by (rewrite <- !app_assoc; reflexivity).
    split; [reflexivity|]. split; [apply lookup_new|].
    apply lookup_app_l_Some, lookup_new.
Qed.

(** A value present in the store is still there once the store has grown. *)
Ltac still_there :=
  solve [repeat first [eassumption | apply lookup_app_l_Some]].

Lemma runs_body b x h v :
  h !! x = Some v ->
  runs (PreResUnit.body_forward b x) h
    (fun '(y, p) h' =>
       h' !! y = Some (body_value b v) /\ h' !! p = Some (body_pre_activ b v)
       /\ h' !! x = Some v).
Proof.
  intros Hx. destruct b as [b|b]; unfold body_pre_activ; simpl.
  - unfold PreResBlock.forward.
    apply runs_bind. eapply runs_weaken; [apply runs_PreResConv, Hx|].
    intros [y p] e1 [Hy Hp].
    apply runs_bind. eapply runs_weaken; [apply runs_PreResConv, Hy|].
    intros [y2 p2] e2 [Hy2 _]. apply runs_ret.
    repeat split; still_there.
  - unfold PreResBottleneck.forward.
    apply runs_bind. eapply runs_weaken; [apply runs_PreResConv, Hx|].
    intros [y p] e1 [Hy Hp].
    apply runs_bind. eapply runs_weaken; [apply runs_PreResConv, Hy|].
    intros [y2 p2] e2 [Hy2 _].
    apply runs_bind. eapply runs_weaken; [apply runs_PreResConv, Hy2|].
    intros [y3 p3] e3 [Hy3 _]. apply runs_ret.
    repeat split; still_there.
Qed.

Lemma runs_PreResUnit (self : PreResUnit.t) c x h v :
  h !! x = Some v ->
  PreResUnit.identity_conv self
  = (if PreResUnit.resize_identity self then Some c else None) ->
  runs (PreResUnit.forward self x) h
    (fun y h' =>
       h' !! y
       = Some (tensor_add (body_value (PreResUnit.body self) v)
                 (if PreResUnit.resize_identity self
                  then conv2d c (body_pre_activ (PreResUnit.body self) v)
                  else v))
       /\ h' !! x = Some v).
Proof.
  intros Hx Hc. unfold PreResUnit.forward.
  apply runs_bind. eapply runs_weaken; [apply runs_body, Hx|].
  intros [y p] e1 (Hy & Hp & Hx1). rewrite Hc.
  destruct (PreResUnit.resize_identity self).
  - apply runs_bind. eapply runs_weaken; [apply runs_Conv2d, Hp|].
    intros i e2 Hi. simpl in Hi.
    eapply runs_weaken; [apply runs_add; [still_there | exact Hi]|].
    intros z e3 Hz. simpl in Hz. split; still_there.
  - apply runs_bind, runs_ret.
    eapply runs_weaken; [apply runs_add; [exact Hy | exact Hx1]|].
    intros z e3 Hz. simpl in Hz. split; still_there.
Qed.
End StoreLemmas.

(** C1. A unit built with [in_channels], [out_channels] and [stride] resizes
    its identity exactly when [in_channels <> out_channels] or [stride <> 1];
    the projection is then the bias-free 1x1 convolution of that stride, and
    is absent otherwise.  Run on any store that holds the input [v] at [x],
    [forward] ends, leaves [x] as it was, and returns a tensor whose value is
    the body output plus the identity branch: the projection applied to the
    activated tensor of the first pre-activation convolution when the
    identity is resized, the input [v] itself otherwise. *)
Theorem PreResUnit_identity_branch {T : TensorOps}
  (in_channels out_channels stride : Z) (bottleneck conv1_stride : bool)
  (h : store) (x : ref) (v : tensor) :
  h !! x = Some v ->
  let self :=
    PreResUnit.__init__ in_channels out_channels stride bottleneck
      conv1_stride in
  let projection := Conv2d.mk in_channels out_channels 1 stride 0 false in
  (PreResUnit.resize_identity self = true
   <-> in_channels <> out_channels \/ stride <> 1)
  /\ PreResUnit.identity_conv self
     = (if PreResUnit.resize_identity self then Some projection else None)
  /\ exists y h',
       PreResUnit.forward self x h = Some (y, h')
       /\ h' !! x = Some v
       /\ h' !! y
          = Some (tensor_add (body_value (PreResUnit.body self) v)
                    (if PreResUnit.resize_identity self
                     then conv2d projection
                            (body_pre_activ (PreResUnit.body self) v)
                     else v)).
Proof.
  intros Hx self projection. split; [|split].
  - unfold self; simpl. rewrite orb_true_iff, !negb_true_iff, !Z.eqb_neq.
    reflexivity.
  - reflexivity.
  - destruct (runs_PreResUnit self projection x h v Hx eq_refl)
      as (y & ext & Hrun & Hy & Hx').
    exists y, (h ++ ext). auto.
Qed.

Lemma PreResUnit_identity_branch_witness :
  (([7] : list Z) !! 0%nat = Some 7)
  /\ PreResUnit.resize_identity (PreResUnit.__init__ 64 128 2 false true) = true
  /\ exists y h',
       PreResUnit.forward (H := Z_tensors)
         (PreResUnit.__init__ 64 128 2 false true) 0%nat [7] = Some (y, h')
       /\ h' !! 0%nat = Some 7.
Proof.
  split; [reflexivity|]. split; [reflexivity|].
  destruct (PreResUnit_identity_branch (T := Z_tensors) 64 128 2 false true
              [7] 0%nat 7 eq_refl) as (_ & _ & y & h' & Hrun & Hx & _).
  exists y, h'. split; [exact Hrun | exact Hx].
Defined.

Example PreResUnit_forward_run :
  PreResUnit.forward (H := Z_tensors)
    (PreResUnit.__init__ 64 128 2 false true) 0%nat [7]
  = Some (6%nat, [7; 0; 2; 0; 1; 2; 3]).
Proof. reflexivity. Qed.

Example PreResUnit_forward_run_plain_identity :
  PreResUnit.forward (H := Z_tensors)
    (PreResUnit.__init__ 64 64 1 true true) 0%nat [100]
  = Some (7%nat, [100; 36; 577; 561; 8977; 8961; 573505; 573605]).
Proof. reflexivity. Qed.

(** ** The construction loops *)

Lemma last_cons_default (c d : Z) (l : list Z) :
  List.last (c :: l) d = List.last l c.
Proof.
  revert c d. induction l as [|a l IH]; intros c d; [reflexivity|].
  change (List.last (a :: l) d = List.last (a :: l) c).
  rewrite (IH a d), (IH a c). reflexivity.
Qed.

Lemma unit_in_channels_init cin cout s b c :
  unit_in_channels (PreResUnit.__init__ cin cout s b c) = cin.
Proof. destruct b; reflexivity. Qed.

Lemma unit_out_channels_init cin cout s b c :
  unit_out_channels (PreResUnit.__init__ cin cout s b c) = cout.
Proof. destruct b; reflexivity. Qed.

Lemma unit_stride_init cin cout s b c :
  unit_stride (PreResUnit.__init__ cin cout s b c) = s.
Proof. destruct b, c; unfold unit_stride; simpl; lia. Qed.

Section Loops.
Variables bottleneck conv1_stride : bool.

Lemma unit_loop_closed i l : forall j stage in_channels,
  fold_left (PreResNet.unit_loop i bottleneck conv1_stride)
    (zip (seq j (length l)) l) (stage, in_channels)
  = (stage ++ stage_units bottleneck conv1_stride i j in_channels l,
     List.last l in_channels).
Proof.
  induction l as [|c l IH]; intros j stage in_channels.
  - simpl. rewrite app_nil_r. reflexivity.
  - cbn [length seq zip zip_with fold_left PreResNet.unit_loop stage_units].
    rewrite IH, <- app_assoc, last_cons_default. reflexivity.
Qed.

Lemma stage_loop_closed channels : forall i stages in_channels,
  fold_left (PreResNet.stage_loop bottleneck conv1_stride)
    (zip (seq i (length channels)) channels) (stages, in_channels)
  = (stages ++ net_stages bottleneck conv1_stride i in_channels channels,
     net_end in_channels channels).
Proof.
  induction channels as [|l channels IH]; intros i stages in_channels.
  - simpl. rewrite app_nil_r. reflexivity.
  - cbn [length seq zip zip_with fold_left PreResNet.stage_loop net_stages
         net_end].
    unfold enumerate. rewrite unit_loop_closed. cbn [app].
    rewrite IH, <- app_assoc. reflexivity.
Qed.

(** The network that [PreResNet.__init__] builds, without the loops. *)
Lemma PreResNet_init_closed channels init_block_channels in_channels
  num_classes :
  PreResNet.__init__ channels init_block_channels bottleneck conv1_stride
    in_channels num_classes
  = {| PreResNet.features :=
         {| PreResNet.init_block :=
              PreResInitBlock.__init__ in_channels init_block_channels;
            PreResNet.stages :=
              net_stages bottleneck conv1_stride 0 init_block_channels
                channels;
            PreResNet.post_activ :=
              PreResActivation.__init__ (net_end init_block_channels channels);
            PreResNet.final_pool := AvgPool2d.mk 7 1 |};
       PreResNet.output :=
         Linear.mk (net_end init_block_channels channels) num_classes |}.
Proof.
  unfold PreResNet.__init__, enumerate. rewrite stage_loop_closed.
  reflexivity.
Qed.

Lemma stage_units_lookup i l : forall j in_channels k u,
  stage_units bottleneck conv1_stride i j in_channels l !! k = Some u ->
  exists cin cout,
    u = PreResUnit.__init__ cin cout (unit_stride_at i (j + k)) bottleneck
          conv1_stride.
Proof.
  induction l as [|c l IH]; intros j in_channels k u Hk; [discriminate|].
  destruct k as [|k]; simpl in Hk.
  - injection Hk as <-. rewrite Nat.add_0_r. eauto.
  - apply IH in Hk. rewrite Nat.add_succ_r. exact Hk.
Qed.

Lemma net_stages_lookup channels : forall i in_channels k stage,
  net_stages bottleneck conv1_stride i in_channels channels !! k = Some stage ->
  exists cin l,
    stage = stage_units bottleneck conv1_stride (i + k) 0 cin l.
Proof.
  induction channels as [|l channels IH]; intros i in_channels k stage Hk;
    [discriminate|].
  destruct k as [|k]; simpl in Hk.
  - injection Hk as <-. rewrite Nat.add_0_r. eauto.
  - apply IH in Hk. rewrite Nat.add_succ_r. exact Hk.
Qed.

Lemma stage_units_chained i l : forall j c,
  chained c (stage_units bottleneck conv1_stride i j c l)
  /\ units_end c (stage_units bottleneck conv1_stride i j c l) = List.last l c.
Proof.
  induction l as [|o l IH]; intros j c; [split; reflexivity|].
  destruct (IH (S j) o) as [IHc IHe]. split.
  - split; [apply unit_in_channels_init|].
    rewrite unit_out_channels_init. exact IHc.
  - unfold units_end in *. cbn [stage_units map].
    rewrite !last_cons_default, unit_out_channels_init. exact IHe.
Qed.

Lemma chained_app us : forall c vs,
  chained c us -> chained (units_end c us) vs -> chained c (us ++ vs).
Proof.
  induction us as [|u us IH]; intros c vs Hus Hvs; [exact Hvs|].
  destruct Hus as [Hin Hus]. split; [exact Hin|].
  apply IH; [exact Hus|]. unfold units_end in *. simpl map in Hvs.
  rewrite last_cons_default in Hvs. exact Hvs.
Qed.

Lemma net_stages_chained channels : forall i c,
  chained c (concat (net_stages bottleneck conv1_stride i c channels)).
Proof.
  induction channels as [|l channels IH]; intros i c; [exact I|].
  cbn [net_stages concat].
  destruct (stage_units_chained i l 0 c) as [Hc He].
  apply chained_app; [exact Hc|]. rewrite He. apply IH.
Qed.
End Loops.

Lemma chained_lookup us : forall c,
  chained c us ->
  (forall u, us !! 0%nat = Some u -> unit_in_channels u = c)
  /\ (forall k u u', us !! k = Some u -> us !! S k = Some u' ->
        unit_in_channels u' = unit_out_channels u).
Proof.
  induction us as [|a us IH]; intros c Hc; [split; intros; discriminate|].
  destruct Hc as [Hin Hus]. destruct (IH _ Hus) as [IH0 IHS]. split.
  - intros u [= <-]. exact Hin.
  - intros [|k] u u' Hu Hu'; simpl in Hu, Hu'.
    + injection Hu as <-. apply IH0, Hu'.
    + eapply IHS; eassumption.
Qed.

(** C3. In the network built from any [channels], the unit at position [j]
    of stage [i] was constructed with stride 2 when [i <> 0] and [j = 0], and
    with stride 1 otherwise; its body reduces the resolution by that
    factor. *)
Theorem stride_placement (channels : list (list Z)) (init_block_channels : Z)
  (bottleneck conv1_stride : bool) (in_channels num_classes : Z)
  (i j : nat) (stage : list PreResUnit.t) (u : PreResUnit.t) :
  let net :=
    PreResNet.__init__ channels init_block_channels bottleneck conv1_stride
      in_channels num_classes in
  PreResNet.stages (PreResNet.features net) !! i = Some stage ->
  stage !! j = Some u ->
  let stride := if decide (i <> 0%nat /\ j = 0%nat) then 2 else 1 in
  unit_stride u = stride
  /\ exists cin cout,
       u = PreResUnit.__init__ cin cout stride bottleneck conv1_stride.
Proof.
  intros net Hi Hj stride. unfold net in Hi.
  rewrite PreResNet_init_closed in Hi. cbn [PreResNet.stages
    PreResNet.features] in Hi.
  destruct (net_stages_lookup _ _ _ _ _ _ _ Hi) as (cin & l & ->).
  destruct (stage_units_lookup _ _ _ _ _ _ _ _ Hj) as (cin' & cout & ->).
  assert (Hs : unit_stride_at (0 + i) (0 + j) = stride).
  { unfold unit_stride_at, stride.
    destruct (decide (i <> 0%nat /\ j = 0%nat)) as [[Hi0 ->]|Hn].
    - destruct i; [contradiction|reflexivity].
    - destruct i; [reflexivity|]. destruct j; [|reflexivity].
      exfalso. apply Hn. split; [discriminate|reflexivity]. }
  rewrite Hs. split; [apply unit_stride_init | eauto].
Qed.

Lemma stride_placement_witness :
  let net := PreResNet.__init__ [[64; 64]; [128; 128]] 64 false true 3 1000 in
  exists stage u,
    PreResNet.stages (PreResNet.features net) !! 1%nat = Some stage
    /\ stage !! 0%nat = Some u
    /\ unit_stride u = 2.
Proof.
  eexists _, _. split; [reflexivity|]. split; [reflexivity|].
  apply (stride_placement [[64; 64]; [128; 128]] 64 false true 3 1000
           1%nat 0%nat _ _ eq_refl eq_refl).
Defined.

(** C4. In the network built from any [channels], the first unit takes the
    channels the init block puts out, and every later unit takes the
    channels the unit before it puts out, also across stage boundaries. *)
Theorem channel_continuity (channels : list (list Z)) (init_block_channels : Z)
  (bottleneck conv1_stride : bool) (in_channels num_classes : Z) :
  let net :=
    PreResNet.__init__ channels init_block_channels bottleneck conv1_stride
      in_channels num_classes in
  let units := concat (PreResNet.stages (PreResNet.features net)) in
  let init_out :=
    Conv2d.out_channels
      (PreResInitBlock.conv (PreResNet.init_block (PreResNet.features net))) in
  (forall u, units !! 0%nat = Some u -> unit_in_channels u = init_out)
  /\ (forall k u u', units !! k = Some u -> units !! S k = Some u' ->
        unit_in_channels u' = unit_out_channels u).
Proof.
  intros net units init_out. unfold init_out, units, net.
  rewrite PreResNet_init_closed.
  cbn [PreResNet.stages PreResNet.features PreResNet.init_block
       PreResInitBlock.conv PreResInitBlock.__init__ Conv2d.out_channels].
  apply chained_lookup, net_stages_chained.
Qed.

Lemma channel_continuity_witness :
  let net := PreResNet.__init__ [[64; 64]; [128; 128]] 32 true false 3 1000 in
  let units := concat (PreResNet.stages (PreResNet.features net)) in
  exists u0 u1 u2,
    units !! 0%nat = Some u0 /\ units !! 1%nat = Some u1
    /\ units !! 2%nat = Some u2
    /\ unit_in_channels u0 = 32
    /\ unit_in_channels u2 = unit_out_channels u1.
Proof.
  pose proof (channel_continuity [[64; 64]; [128; 128]] 32 true false 3 1000)
    as [H0 HS].
  eexists _, _, _.
  split; [reflexivity|]. split; [reflexivity|]. split; [reflexivity|]. split.
  - apply (H0 _ eq_refl).
  - apply (HS 1%nat _ _ eq_refl eq_refl).
Defined.

(** ** The factory *)

(** [int()] of a finite float is its exact value truncated toward zero. *)
Lemma int_of_float_truncates (x : float) (n : Z) :
  int_of_float x = Return n ->
  exists num den,
    float_fraction x = Some (num, den) /\ 0 < den /\ n = num ÷ den.
Proof.
  destruct x as [s|s| |s m e]; simpl; intros Hn; try discriminate;
    injection Hn as <-.
  - exists 0, 1. split; [reflexivity|]. split; [lia | reflexivity].
  - eexists _, _. split; [reflexivity|].
    destruct (Z.leb_spec 0 e) as [He|He].
    + rewrite (Z.max_l e 0), (Z.max_r (- e) 0) by lia.
      split; [reflexivity|]. rewrite Z.quot_1_r. reflexivity.
    + rewrite (Z.max_r e 0), (Z.max_l (- e) 0) by lia.
      assert (Hd : 0 < 2 ^ (- e)) by (apply Z.pow_pos_nonneg; lia).
      split; [exact Hd|]. rewrite Z.mul_1_r.
      destruct s; simpl.
      * rewrite Z.quot_opp_l by lia. rewrite Z.quot_div_nonneg by lia.
        reflexivity.
      * rewrite Z.quot_div_nonneg by lia. reflexivity.
Qed.

Example scaled_width_truncates :
  map (scaled_width (dyadic 3 (-8))) [64; 128; 256; 512]
  = [Return 0; Return 1; Return 3; Return 6].
Proof. reflexivity. Qed.

Example scaled_width_toward_zero :
  map (scaled_width (dyadic (-3) (-8))) [64; 128; 256; 512]
  = [Return 0; Return (-1); Return (-3); Return (-6)].
Proof. reflexivity. Qed.

Example scaled_width_nan :
  scaled_width S754_nan 64
  = Raise (ValueError "cannot convert float NaN to integer").
Proof. reflexivity. Qed.

Example preresnet18_wd2_units :
  (net ← preresnet18_wd2 no_kwargs;
   Return
     (map (map (fun u => (unit_in_channels u, unit_out_channels u,
                          unit_stride u, PreResUnit.resize_identity u)))
        (PreResNet.stages (PreResNet.features net))))
  = Return
      [[(32, 32, 1, false); (32, 32, 1, false)];
       [(32, 64, 2, true); (64, 64, 1, false)];
       [(64, 128, 2, true); (128, 128, 1, false)];
       [(128, 256, 2, true); (256, 256, 1, false)]].
Proof. reflexivity. Qed.

Example preresnet50b_first_units :
  (net ← preresnet50b no_kwargs;
   Return
     (map (fun stage =>
             map (fun c => (Conv2d.out_channels (PreResConv.conv c),
                            Conv2d.stride (PreResConv.conv c)))
               (concat (map (fun u => body_convs (PreResUnit.body u))
                          (take 1 stage))))
        (PreResNet.stages (PreResNet.features net))))
  = Return
      [[(64, 1); (64, 1); (256, 1)];
       [(128, 1); (128, 2); (512, 1)];
       [(256, 1); (256, 2); (1024, 1)];
       [(512, 1); (512, 2); (2048, 1)]].
Proof. reflexivity. Qed.

Example get_preresnet_11 :
  get_preresnet 11 true float_1_0 false (mk_net_kwargs None None)
  = Raise (ValueError "Unsupported ResNet with number of blocks: 11").
Proof. reflexivity. Qed.

Example get_preresnet_nan_pretrained :
  get_preresnet 18 true S754_nan true (mk_net_kwargs None None)
  = Raise (ValueError "cannot convert float NaN to integer").
Proof. reflexivity. Qed.

Ltac table_cases H :=
  simpl in H;
  repeat (destruct H as [H|H]; [injection H as <- <-|]);
  [..|contradiction].

Lemma get_preresnet_unsupported blocks cs ws p kw :
  ~ In blocks (map fst layers_table) ->
  get_preresnet blocks cs ws p kw = Raise (UnsupportedConfiguration blocks).
Proof.
  intros Hn. unfold get_preresnet.
  repeat match goal with
         | |- context [blocks =? ?k] =>
             destruct (Z.eqb_spec blocks k) as [->|_];
             [exfalso; apply Hn; simpl; tauto|]
         end.
  reflexivity.
Qed.

(** For a block count of the table, what is left of [get_preresnet] once
    the table and the threshold are resolved. *)
Lemma get_preresnet_supported blocks layers cs ws p kw :
  In (blocks, layers) layers_table ->
  get_preresnet blocks cs ws p kw
  = '(channels, init_block_channels) ←
      (if float_ne ws float_1_0 then
         channels ←
           comprehension (comprehension (scaled_width ws))
             (zip_with list_repeat (base_widths blocks) layers);
         init_block_channels ← scaled_width ws 64;
         Return (channels, init_block_channels)
       else Return (zip_with list_repeat (base_widths blocks) layers, 64));
    if p then Raise NotSupported
    else Return (PreResNet.__init__ channels init_block_channels
                   (negb (blocks <? 50)) cs
                   (default 3 (kw_in_channels kw))
                   (default 1000 (kw_num_classes kw))).
Proof. intros Hin. table_cases Hin; reflexivity. Qed.

Lemma comprehension_list_repeat {A B : Type} (f : A -> result B) x y n :
  f x = Return y ->
  comprehension f (list_repeat x n) = Return (list_repeat y n).
Proof.
  intros Hf. unfold list_repeat.
  induction (Z.to_nat n) as [|k IH]; [reflexivity|].
  simpl. rewrite Hf. simpl. rewrite IH. reflexivity.
Qed.

Lemma scale_channels ws cs ns : forall layers,
  Forall2 (fun c n => scaled_width ws c = Return n) cs ns ->
  comprehension (comprehension (scaled_width ws))
    (zip_with list_repeat cs layers)
  = Return (zip_with list_repeat ns layers).
Proof.
  intros layers Hns. revert layers.
  induction Hns as [|c n cs ns Hc _ IH]; intros [|l layers]; try reflexivity.
  cbn [zip_with comprehension].
  rewrite (comprehension_list_repeat _ _ _ _ Hc). cbn [mbind result_bind].
  rewrite IH. reflexivity.
Qed.

Lemma get_preresnet_scaled blocks layers cs ws kw ns n0 :
  In (blocks, layers) layers_table ->
  float_ne ws float_1_0 = true ->
  Forall2 (fun c n => scaled_width ws c = Return n) (base_widths blocks) ns ->
  scaled_width ws 64 = Return n0 ->
  get_preresnet blocks cs ws false kw
  = Return (PreResNet.__init__ (zip_with list_repeat ns layers)
              n0 (negb (blocks <? 50)) cs
              (default 3 (kw_in_channels kw))
              (default 1000 (kw_num_classes kw))).
Proof.
  intros Hin Hne Hns H0.
  rewrite (get_preresnet_supported _ _ _ _ _ _ Hin), Hne.
  rewrite (scale_channels _ _ _ _ Hns). cbn [mbind result_bind].
  rewrite H0. reflexivity.
Qed.

Lemma get_preresnet_unscaled blocks layers cs ws kw :
  In (blocks, layers) layers_table ->
  float_ne ws float_1_0 = false ->
  get_preresnet blocks cs ws false kw
  = Return (PreResNet.__init__
              (zip_with list_repeat (base_widths blocks) layers)
              64 (negb (blocks <? 50)) cs
              (default 3 (kw_in_channels kw))
              (default 1000 (kw_num_classes kw))).
Proof.
  intros Hin Hne.
  rewrite (get_preresnet_supported _ _ _ _ _ _ Hin), Hne. reflexivity.
Qed.

(** With [pretrained] set, no call returns a network. *)
Lemma get_preresnet_pretrained blocks cs ws kw net :
  get_preresnet blocks cs ws true kw <> Return net.
Proof.
  destruct (in_dec Z.eq_dec blocks (map fst layers_table)) as [Hin|Hn].
  - apply in_map_iff in Hin as ([b layers] & <- & Hin).
    rewrite (get_preresnet_supported _ _ _ _ _ _ Hin).
    destruct (float_ne ws float_1_0); [|discriminate].
    destruct (comprehension _ _); [|discriminate]. cbn [mbind result_bind].
    destruct (scaled_width ws 64); discriminate.
  - rewrite get_preresnet_unsupported by exact Hn. discriminate.
Qed.

Lemma comprehension_length {A B : Type} (f : A -> result B) l : forall l',
  comprehension f l = Return l' -> length l' = length l.
Proof.
  induction l as [|x l IH]; intros l'; simpl.
  - intros [= <-]. reflexivity.
  - destruct (f x); [|discriminate]. cbn [mbind result_bind].
    destruct (comprehension f l); [|discriminate]. cbn [mbind result_bind].
    intros [= <-]. simpl. f_equal. apply IH. reflexivity.
Qed.

Lemma comprehension_lengths {A B : Type} (f : A -> result B) L : forall L',
  comprehension (comprehension f) L = Return L' ->
  map length L' = map length L.
Proof.
  induction L as [|l L IH]; intros L'; simpl.
  - intros [= <-]. reflexivity.
  - destruct (comprehension f l) eqn:El; [|discriminate].
    cbn [mbind result_bind].
    destruct (comprehension (comprehension f) L); [|discriminate].
    cbn [mbind result_bind]. intros [= <-]. simpl. f_equal.
    + apply (comprehension_length f), El.
    + apply IH. reflexivity.
Qed.

Lemma stage_units_length b cs i l : forall j c,
  length (stage_units b cs i j c l) = length l.
Proof. induction l as [|o l IH]; intros j c; simpl; [|rewrite IH]; reflexivity. Qed.

Lemma net_stages_lengths b cs channels : forall i c,
  map length (net_stages b cs i c channels) = map length channels.
Proof.
  induction channels as [|l channels IH]; intros i c; simpl; [reflexivity|].
  rewrite stage_units_length, IH. reflexivity.
Qed.

(** A returned network was built by [PreResNet.__init__] with the flag the
    threshold gives and with as many widths per stage as the table says. *)
Lemma get_preresnet_returns blocks layers cs ws kw net :
  In (blocks, layers) layers_table ->
  get_preresnet blocks cs ws false kw = Return net ->
  exists channels init_block_channels,
    net = PreResNet.__init__ channels init_block_channels
            (negb (blocks <? 50)) cs
            (default 3 (kw_in_channels kw))
            (default 1000 (kw_num_classes kw))
    /\ map length channels
       = map length (zip_with list_repeat (base_widths blocks) layers).
Proof.
  intros Hin. rewrite (get_preresnet_supported _ _ _ _ _ _ Hin).
  destruct (float_ne ws float_1_0).
  - destruct (comprehension _ _) as [channels|] eqn:Ec; [|discriminate].
    cbn [mbind result_bind].
    destruct (scaled_width ws 64) as [n0|]; [|discriminate].
    intros [= <-]. exists channels, n0. split; [reflexivity|].
    apply (comprehension_lengths _ _ _ Ec).
  - intros [= <-]. eauto.
Qed.

Lemma table_stage_lengths blocks layers :
  In (blocks, layers) layers_table ->
  map (fun l => Z.of_nat (length l))
    (zip_with list_repeat (base_widths blocks) layers)
  = layers.
Proof. intros Hin. table_cases Hin; reflexivity. Qed.

(** C2. For a block count of the table, called without width scaling and
    without [pretrained], [get_preresnet] returns the network built from
    the widths [64,128,256,512] without bottleneck when [blocks < 50] and
    from [256,512,1024,2048] with bottleneck otherwise, each width repeated
    as the table says, and from the init width 64.  Whatever the width
    scale, a returned network carries the bottleneck flag of that
    threshold. *)
Theorem base_widths_by_threshold (blocks : Z) (layers : list Z)
  (conv1_stride : bool) (kwargs : net_kwargs) :
  In (blocks, layers) layers_table ->
  get_preresnet blocks conv1_stride float_1_0 false kwargs
  = Return
      (PreResNet.__init__
         (zip_with list_repeat
            (if blocks <? 50 then [64; 128; 256; 512]
             else [256; 512; 1024; 2048])
            layers)
         64 (if blocks <? 50 then false else true) conv1_stride
         (default 3 (kw_in_channels kwargs))
         (default 1000 (kw_num_classes kwargs)))
  /\ forall width_scale net,
       get_preresnet blocks conv1_stride width_scale false kwargs = Return net ->
       exists channels init_block_channels,
         net = PreResNet.__init__ channels init_block_channels
                 (if blocks <? 50 then false else true) conv1_stride
                 (default 3 (kw_in_channels kwargs))
                 (default 1000 (kw_num_classes kwargs)).
Proof.
  intros Hin. split.
  - rewrite (get_preresnet_unscaled _ _ _ float_1_0 _ Hin eq_refl).
    unfold base_widths. destruct (blocks <? 50); reflexivity.
  - intros ws net Hnet.
    destruct (get_preresnet_returns _ _ _ _ _ _ Hin Hnet)
      as (channels & n0 & -> & _).
    exists channels, n0. destruct (blocks <? 50); reflexivity.
Qed.

Lemma base_widths_by_threshold_witness :
  In (34, [3; 4; 6; 3]) layers_table
  /\ get_preresnet 34 true float_1_0 false (mk_net_kwargs None None)
     = Return
         (PreResNet.__init__
            [[64; 64; 64]; [128; 128; 128; 128];
             [256; 256; 256; 256; 256; 256]; [512; 512; 512]]
            64 false true 3 1000).
Proof.
  assert (Hin : In (34, [3; 4; 6; 3]) layers_table) by (simpl; tauto).
  split; [exact Hin|].
  apply (base_widths_by_threshold 34 [3; 4; 6; 3] true
           (mk_net_kwargs None None) Hin).
Defined.

(** C5, as the code has it.  A bottleneck built for [out_channels] channels
    has mid width [out_channels / 4], the floor of the quotient and zero
    when [out_channels] is below 4, on the output of its first convolution,
    on both sides of the second and on the input of the third; the kernels
    are 1, 3, 1; the unit stride sits on the first convolution when
    [conv1_stride] holds and on the second otherwise, the other two having
    stride 1. *)
Theorem bottleneck_mid_channels (in_channels out_channels stride : Z)
  (conv1_stride : bool) :
  let b :=
    PreResBottleneck.__init__ in_channels out_channels stride conv1_stride in
  let mid := out_channels / 4 in
  let convs :=
    map PreResConv.conv
      [PreResBottleneck.conv1 b; PreResBottleneck.conv2 b;
       PreResBottleneck.conv3 b] in
  4 * mid <= out_channels < 4 * mid + 4
  /\ map Conv2d.in_channels convs = [in_channels; mid; mid]
  /\ map Conv2d.out_channels convs = [mid; mid; out_channels]
  /\ map Conv2d.kernel_size convs = [1; 3; 1]
  /\ map Conv2d.stride convs
     = (if conv1_stride then [stride; 1; 1] else [1; stride; 1]).
Proof.
  intros b mid convs. split; [|repeat split].
  - unfold mid. pose proof (Z.div_mod out_channels 4).
    pose proof (Z.mod_pos_bound out_channels 4). lia.
  - destruct conv1_stride; reflexivity.
Qed.

(** C5, as the claim states it, fails: [get_preresnet(50,
    width_scale=2**-7)] returns a network, and the first unit of that
    network is a bottleneck for 2 output channels whose mid width
    [2 // 4] is zero. *)
Lemma zero_mid_channels_not_rejected :
  exists net u b,
    get_preresnet 50 true (dyadic 1 (-7)) false (mk_net_kwargs None None)
    = Return net
    /\ concat (PreResNet.stages (PreResNet.features net)) !! 0%nat = Some u
    /\ PreResUnit.body u = PreResUnit.Bottleneck b
    /\ unit_out_channels u = 2
    /\ Conv2d.out_channels (PreResConv.conv (PreResBottleneck.conv1 b)) = 0.
Proof.
  eexists _, _, _. split; [reflexivity|]. split; [reflexivity|].
  split; [reflexivity|]. split; reflexivity.
Qed.

(** C6. For a block count of the table and a width scale different from
    1.0, [get_preresnet] converts [int(c * width_scale)] for every width
    [c] of the expanded per-stage lists, then for the init width 64, and
    builds the network from the results.  If the conversion gives [n] for
    each base width and [n0] for 64, the network is built from the widths
    [n], each repeated over the units of its stage, and from the init width
    [n0].  [int(c * width_scale)] is the exact value of the float product
    truncated toward zero.  With width scale 0.5 and [blocks < 50] the
    widths are [32,64,128,256] and the init width is 32.  With width scale
    1.0 the widths are the base widths and the init width is 64. *)
Theorem width_scaling (blocks : Z) (layers : list Z) (conv1_stride : bool)
  (kwargs : net_kwargs) :
  In (blocks, layers) layers_table ->
  let build channels init_block_channels :=
    Return (PreResNet.__init__ channels init_block_channels
              (negb (blocks <? 50)) conv1_stride
              (default 3 (kw_in_channels kwargs))
              (default 1000 (kw_num_classes kwargs))) in
  (forall width_scale,
     float_ne width_scale float_1_0 = true ->
     get_preresnet blocks conv1_stride width_scale false kwargs
     = (channels ←
          comprehension (comprehension (scaled_width width_scale))
            (zip_with list_repeat (base_widths blocks) layers);
        init_block_channels ← scaled_width width_scale 64;
        build channels init_block_channels))
  /\ (forall width_scale ns n0,
        float_ne width_scale float_1_0 = true ->
        Forall2 (fun c n => scaled_width width_scale c = Return n)
          (base_widths blocks) ns ->
        scaled_width width_scale 64 = Return n0 ->
        get_preresnet blocks conv1_stride width_scale false kwargs
        = build (zip_with list_repeat ns layers) n0)
  /\ (forall width_scale c n,
        scaled_width width_scale c = Return n ->
        exists x num den,
          int_mul_float c width_scale = Return x
          /\ float_fraction x = Some (num, den) /\ 0 < den /\ n = num ÷ den)
  /\ (blocks < 50 ->
      get_preresnet blocks conv1_stride float_0_5 false kwargs
      = build (zip_with list_repeat [32; 64; 128; 256] layers) 32)
  /\ get_preresnet blocks conv1_stride float_1_0 false kwargs
     = build (zip_with list_repeat (base_widths blocks) layers) 64.
Proof.
  intros Hin build. split; [|split; [|split; [|split]]].
  - intros ws Hne. rewrite (get_preresnet_supported _ _ _ _ _ _ Hin), Hne.
    destruct (comprehension _ _); [|reflexivity]. cbn [mbind result_bind].
    destruct (scaled_width ws 64); reflexivity.
  - intros ws ns n0 Hne Hns H0.
    apply (get_preresnet_scaled _ _ _ _ _ _ _ Hin Hne Hns H0).
  - intros ws c n Hn. unfold scaled_width in Hn.
    destruct (int_mul_float c ws) as [x|]; [|discriminate].
    cbn [mbind result_bind] in Hn.
    destruct (int_of_float_truncates x n Hn) as (num & den & Hf & Hd & Hq).
    exists x, num, den. auto.
  - intros Hlt.
    apply (get_preresnet_scaled _ _ _ float_0_5 _ _ _ Hin eq_refl);
      [|reflexivity].
    unfold base_widths. apply Z.ltb_lt in Hlt. rewrite Hlt.
    repeat constructor.
  - apply (get_preresnet_unscaled _ _ _ float_1_0 _ Hin eq_refl).
Qed.

Lemma width_scaling_witness :
  In (18, [2; 2; 2; 2]) layers_table
  /\ 18 < 50
  /\ get_preresnet 18 true float_0_5 false (mk_net_kwargs None None)
     = Return
         (PreResNet.__init__ [[32; 32]; [64; 64]; [128; 128]; [256; 256]] 32
            false true 3 1000).
Proof.
  assert (Hin : In (18, [2; 2; 2; 2]) layers_table) by (simpl; tauto).
  split; [exact Hin|]. split; [lia|].
  apply (proj1 (proj2 (proj2 (proj2
           (width_scaling 18 [2; 2; 2; 2] true (mk_net_kwargs None None)
              Hin))))).
  lia.
Defined.

(** C7. For each entry of the table, [get_preresnet] returns a network when
    called without width scaling and without [pretrained], and every
    network it returns for that block count has the listed number of units
    in each of its four stages.  For a block count outside the table, 11
    for one, every call raises the error for unsupported block counts and
    returns no network. *)
Theorem layers_lookup :
  (forall blocks layers conv1_stride kwargs,
     In (blocks, layers) layers_table ->
     (exists net,
        get_preresnet blocks conv1_stride float_1_0 false kwargs = Return net)
     /\ forall width_scale net,
          get_preresnet blocks conv1_stride width_scale false kwargs
          = Return net ->
          map (fun stage => Z.of_nat (length stage))
            (PreResNet.stages (PreResNet.features net))
          = layers)
  /\ (forall blocks conv1_stride width_scale pretrained kwargs,
        ~ In blocks (map fst layers_table) ->
        get_preresnet blocks conv1_stride width_scale pretrained kwargs
        = Raise (UnsupportedConfiguration blocks))
  /\ (forall conv1_stride width_scale pretrained kwargs,
        get_preresnet 11 conv1_stride width_scale pretrained kwargs
        = Raise (ValueError "Unsupported ResNet with number of blocks: 11")).
Proof.
  split; [|split].
  - intros blocks layers cs kw Hin. split.
    + eexists. apply (get_preresnet_unscaled _ _ _ float_1_0 _ Hin eq_refl).
    + intros ws net Hnet.
      destruct (get_preresnet_returns _ _ _ _ _ _ Hin Hnet)
        as (channels & n0 & -> & Hlen).
      rewrite PreResNet_init_closed.
      cbn [PreResNet.stages PreResNet.features].
      rewrite <- (map_map length Z.of_nat), net_stages_lengths, Hlen.
      rewrite map_map. apply table_stage_lengths, Hin.
  - intros blocks cs ws p kw Hn. apply get_preresnet_unsupported, Hn.
  - intros cs ws p kw. reflexivity.
Qed.

Lemma layers_lookup_witness :
  In (101, [3; 4; 23; 3]) layers_table
  /\ exists net,
       get_preresnet 101 true float_1_0 false (mk_net_kwargs None None)
       = Return net
       /\ map (fun stage => Z.of_nat (length stage))
            (PreResNet.stages (PreResNet.features net))
          = [3; 4; 23; 3].
Proof.
  assert (Hin : In (101, [3; 4; 23; 3]) layers_table) by (simpl; tauto).
  split; [exact Hin|].
  destruct (proj1 layers_lookup 101 [3; 4; 23; 3] true
              (mk_net_kwargs None None) Hin) as [[net Hnet] Hlen].
  exists net. split; [exact Hnet | exact (Hlen _ _ Hnet)].
Defined.

(** C8. Each preset function, called with [pretrained=True], raises the
    error for pretrained weights; so does [get_preresnet] for every block
    count of the table and every documented width scale; and with
    [pretrained] set no call of [get_preresnet] at all returns a network. *)
Theorem pretrained_not_supported :
  Forall
    (fun preset : kwargs -> result PreResNet.t =>
       forall kwargs,
         preset {| kw_conv1_stride := None; kw_width_scale := None;
                   kw_pretrained := Some true; kw_net := kwargs |}
         = Raise NotSupported)
    presets
  /\ (forall blocks layers conv1_stride kwargs,
        In (blocks, layers) layers_table ->
        Forall
          (fun width_scale =>
             get_preresnet blocks conv1_stride width_scale true kwargs
             = Raise NotSupported)
          [float_1_0; float_0_75; float_0_5; float_0_25])
  /\ (forall blocks conv1_stride width_scale kwargs net,
        get_preresnet blocks conv1_stride width_scale true kwargs
        <> Return net).
Proof.
  split; [|split].
  - repeat constructor; intros kw; reflexivity.
  - intros blocks layers cs kw Hin.
    table_cases Hin; repeat constructor.
  - intros blocks cs ws kw net. apply get_preresnet_pretrained.
Qed.

Lemma pretrained_not_supported_witness :
  In (152, [3; 8; 36; 3]) layers_table
  /\ get_preresnet 152 false float_0_25 true (mk_net_kwargs None None)
     = Raise (ValueError "Pretrained model is not supported").
Proof.
  assert (Hin : In (152, [3; 8; 36; 3]) layers_table) by (simpl; tauto).
  split; [exact Hin|].
  pose proof (proj1 (proj2 pretrained_not_supported) 152 [3; 8; 36; 3] false
                (mk_net_kwargs None None) Hin) as Hall.
  exact (Forall_lookup_1 _ _ 3%nat float_0_25 Hall eq_refl).
Defined.

(** C10. For a block count outside the table, a call with [pretrained]
    set raises the error for unsupported block counts, which is not the
    error for pretrained weights. *)
Theorem unsupported_before_pretrained (blocks : Z) (conv1_stride : bool)
  (width_scale : float) (kwargs : net_kwargs) :
  ~ In blocks (map fst layers_table) ->
  get_preresnet blocks conv1_stride width_scale true kwargs
  = Raise (UnsupportedConfiguration blocks)
  /\ UnsupportedConfiguration blocks <> NotSupported.
Proof.
  intros Hn. split; [apply get_preresnet_unsupported, Hn|].
  unfold UnsupportedConfiguration, NotSupported. simpl. discriminate.
Qed.

Lemma unsupported_before_pretrained_witness :
  ~ In 11 (map fst layers_table)
  /\ get_preresnet 11 true float_0_5 true (mk_net_kwargs None None)
     = Raise (ValueError "Unsupported ResNet with number of blocks: 11").
Proof.
  assert (Hn : ~ In 11 (map fst layers_table)).
  { simpl. intros H. repeat (destruct H as [H|H]; [discriminate|]). exact H. }
  split; [exact Hn|].
  apply (unsupported_before_pretrained 11 true float_0_5
           (mk_net_kwargs None None) Hn).
Defined.

(** ** Parameter counts *)

(** Where the stride of a bottleneck sits changes no parameter shape. *)
Lemma unit_parameters_conv1_stride cin cout s b c c' :
  PreResUnit.parameters (PreResUnit.__init__ cin cout s b c)
  = PreResUnit.parameters (PreResUnit.__init__ cin cout s b c').
Proof. destruct b, c, c'; reflexivity. Qed.

Lemma stage_units_parameters b c c' i l : forall j cin,
  map PreResUnit.parameters (stage_units b c i j cin l)
  = map PreResUnit.parameters (stage_units b c' i j cin l).
Proof.
  induction l as [|o l IH]; intros j cin; [reflexivity|].
  cbn [stage_units map].
  rewrite (unit_parameters_conv1_stride _ _ _ _ c c'), IH. reflexivity.
Qed.

Lemma net_stages_parameters b c c' channels : forall i cin,
  map (fun stage => concat (map PreResUnit.parameters stage))
    (net_stages b c i cin channels)
  = map (fun stage => concat (map PreResUnit.parameters stage))
      (net_stages b c' i cin channels).
Proof.
  induction channels as [|l channels IH]; intros i cin; [reflexivity|].
  cbn [net_stages map].
  rewrite (stage_units_parameters _ c c'), IH. reflexivity.
Qed.

Lemma weight_count_conv1_stride channels init_block_channels b c c'
  in_channels num_classes :
  weight_count
    (PreResNet.__init__ channels init_block_channels b c in_channels
       num_classes)
  = weight_count
      (PreResNet.__init__ channels init_block_channels b c' in_channels
         num_classes).
Proof.
  rewrite !PreResNet_init_closed. unfold weight_count, PreResNet.parameters.
  cbn [PreResNet.features PreResNet.stages PreResNet.init_block
       PreResNet.post_activ PreResNet.final_pool PreResNet.output].
  rewrite (net_stages_parameters _ c c'). reflexivity.
Qed.

(** C9. Counted as [_test] counts them, the trainable parameters of the
    preset networks are 11,687,848 for [preresnet18], 21,796,008 for
    [preresnet34], 25,549,480 for [preresnet50] and [preresnet50b],
    44,541,608 for [preresnet101] and [preresnet101b], 60,185,256 for
    [preresnet152] and [preresnet152b]; and for any network the count is
    the same whichever convolution of the bottleneck carries the stride. *)
Theorem parameter_counts :
  test_weight_count preresnet18 = Return 11687848
  /\ test_weight_count preresnet34 = Return 21796008
  /\ test_weight_count preresnet50 = Return 25549480
  /\ test_weight_count preresnet50b = Return 25549480
  /\ test_weight_count preresnet101 = Return 44541608
  /\ test_weight_count preresnet101b = Return 44541608
  /\ test_weight_count preresnet152 = Return 60185256
  /\ test_weight_count preresnet152b = Return 60185256
  /\ forall channels init_block_channels bottleneck in_channels num_classes,
       weight_count
         (PreResNet.__init__ channels init_block_channels bottleneck true
            in_channels num_classes)
       = weight_count
           (PreResNet.__init__ channels init_block_channels bottleneck false
              in_channels num_classes).
Proof.
  repeat (split; [vm_compute; reflexivity|]).
  intros. apply weight_count_conv1_stride.
Qed.

(** * Further properties *)

(** ** The layout of a built network *)

Lemma stage_units_out b cs i l : forall j cin,
  map unit_out_channels (stage_units b cs i j cin l) = l
  /\ Forall (fun u => is_bottleneck u = b) (stage_units b cs i j cin l).
Proof.
  induction l as [|o l IH]; intros j cin; [split; constructor|].
  destruct (IH (S j) o) as [IHo IHb]. cbn [stage_units map]. split.
  - rewrite unit_out_channels_init, IHo. reflexivity.
  - constructor; [destruct b; reflexivity | exact IHb].
Qed.

Lemma net_stages_out b cs channels : forall i cin,
  map (map unit_out_channels) (net_stages b cs i cin channels) = channels
  /\ Forall (Forall (fun u => is_bottleneck u = b))
       (net_stages b cs i cin channels).
Proof.
  induction channels as [|l channels IH]; intros i cin; [split; constructor|].
  destruct (IH (S i) (List.last l cin)) as [IHo IHb].
  destruct (stage_units_out b cs i l 0 cin) as [Ho Hb].
  cbn [net_stages map]. split.
  - rewrite Ho, IHo. reflexivity.
  - constructor; assumption.
Qed.

(** X1. The stages of a built network mirror [channels]: stage [i] has one
    unit per entry of [channels[i]], unit [j] puts out [channels[i][j]]
    channels, and every unit is a bottleneck or none is, as the flag
    says. *)
Theorem stages_mirror_channels (channels : list (list Z))
  (init_block_channels : Z) (bottleneck conv1_stride : bool)
  (in_channels num_classes : Z) :
  let net :=
    PreResNet.__init__ channels init_block_channels bottleneck conv1_stride
      in_channels num_classes in
  map (map unit_out_channels) (PreResNet.stages (PreResNet.features net))
  = channels
  /\ Forall (Forall (fun u => is_bottleneck u = bottleneck))
       (PreResNet.stages (PreResNet.features net)).
Proof.
  intros net. unfold net. rewrite PreResNet_init_closed.
  cbn [PreResNet.stages PreResNet.features]. apply net_stages_out.
Qed.

Lemma units_end_app us vs c :
  units_end c (us ++ vs) = units_end (units_end c us) vs.
Proof.
  revert c. induction us as [|u us IH]; intros c; [reflexivity|].
  unfold units_end in *. cbn [app map].
  rewrite !last_cons_default. apply IH.
Qed.

Lemma net_stages_end b cs channels : forall i c,
  units_end c (concat (net_stages b cs i c channels)) = net_end c channels.
Proof.
  induction channels as [|l channels IH]; intros i c; [reflexivity|].
  cbn [net_stages concat net_end fold_left].
  rewrite units_end_app.
  rewrite (proj2 (stage_units_chained b cs i l 0 c)). apply IH.
Qed.

(** X2. The final normalization and the classifier of a built network take
    the channels the last unit puts out, and the channels of the init block
    when [channels] holds no unit at all; the classifier puts out
    [num_classes] values. *)
Theorem classifier_width (channels : list (list Z))
  (init_block_channels : Z) (bottleneck conv1_stride : bool)
  (in_channels num_classes : Z) :
  let net :=
    PreResNet.__init__ channels init_block_channels bottleneck conv1_stride
      in_channels num_classes in
  let last_out :=
    List.last
      (map unit_out_channels
         (concat (PreResNet.stages (PreResNet.features net))))
      init_block_channels in
  BatchNorm2d.num_features
    (PreResActivation.bn (PreResNet.post_activ (PreResNet.features net)))
  = last_out
  /\ Linear.in_features (PreResNet.output net) = last_out
  /\ Linear.out_features (PreResNet.output net) = num_classes.
Proof.
  intros net last_out. unfold last_out, net. rewrite PreResNet_init_closed.
  cbn [PreResNet.stages PreResNet.features PreResNet.post_activ
       PreResNet.output PreResActivation.__init__ PreResActivation.bn
       BatchNorm2d.num_features Linear.in_features Linear.out_features].
  fold (units_end init_block_channels
          (concat (net_stages bottleneck conv1_stride 0 init_block_channels
                     channels))).
  rewrite net_stages_end. auto.
Qed.

(** ** When the factory returns *)

Lemma comprehension_list_repeat_inv {A B : Type} (f : A -> result B) x n l :
  0 < n ->
  comprehension f (list_repeat x n) = Return l ->
  exists y, f x = Return y /\ l = list_repeat y n.
Proof.
  intros Hn Hl. unfold list_repeat in *.
  destruct (Z.to_nat n) as [|k] eqn:Hk; [lia|].
  cbn [replicate comprehension] in Hl.
  destruct (f x) as [y|] eqn:Hy; [|discriminate].
  exists y. split; [reflexivity|].
  cbn [mbind result_bind] in Hl.
  assert (Hrest : comprehension f (replicate k x) = Return (replicate k y)).
  { clear Hl Hk. induction k as [|k IH]; [reflexivity|].
    cbn [replicate comprehension]. rewrite Hy. cbn [mbind result_bind].
    rewrite IH. reflexivity. }
  rewrite Hrest in Hl. cbn [mbind result_bind] in Hl.
  injection Hl as <-. reflexivity.
Qed.

Lemma scale_channels_inv {A B : Type} (f : A -> result B) cs : forall layers L,
  Forall (fun l => 0 < l) layers ->
  length cs = length layers ->
  comprehension (comprehension f) (zip_with list_repeat cs layers) = Return L ->
  exists ns,
    Forall2 (fun c n => f c = Return n) cs ns
    /\ L = zip_with list_repeat ns layers.
Proof.
  induction cs as [|c cs IH]; intros [|l layers] L Hpos Hlen HL;
    try discriminate.
  - injection HL as <-. exists []. split; constructor.
  - cbn [zip_with comprehension] in HL.
    destruct (comprehension f (list_repeat c l)) as [row|] eqn:Hrow;
      [|discriminate].
    cbn [mbind result_bind] in HL.
    destruct (comprehension (comprehension f) (zip_with list_repeat cs layers))
      as [rows|] eqn:Hrows; [|discriminate].
    cbn [mbind result_bind] in HL. injection HL as <-.
    apply Forall_cons in Hpos as [Hl Hpos].
    destruct (comprehension_list_repeat_inv f c l row Hl Hrow) as (n & Hn & ->).
    destruct (IH layers rows Hpos ltac:(simpl in Hlen; lia) Hrows)
      as (ns & Hns & ->).
    exists (n :: ns). split; [constructor; assumption | reflexivity].
Qed.

Lemma table_layers blocks layers :
  In (blocks, layers) layers_table ->
  Forall (fun l => 0 < l) layers
  /\ length (base_widths blocks) = length layers.
Proof.
  intros Hin. table_cases Hin;
    (split; [repeat constructor | reflexivity]).
Qed.

(** A returned network has one width per stage. *)
Lemma get_preresnet_returns_uniform blocks layers cs ws kw net :
  In (blocks, layers) layers_table ->
  get_preresnet blocks cs ws false kw = Return net ->
  exists ns n0,
    net = PreResNet.__init__ (zip_with list_repeat ns layers) n0
            (negb (blocks <? 50)) cs
            (default 3 (kw_in_channels kw))
            (default 1000 (kw_num_classes kw))
    /\ (if float_ne ws float_1_0
        then Forall2 (fun c n => scaled_width ws c = Return n)
               (base_widths blocks) ns
             /\ scaled_width ws 64 = Return n0
        else ns = base_widths blocks /\ n0 = 64).
Proof.
  intros Hin. rewrite (get_preresnet_supported _ _ _ _ _ _ Hin).
  destruct (table_layers _ _ Hin) as [Hpos Hlen].
  destruct (float_ne ws float_1_0).
  - destruct (comprehension _ _) as [channels|] eqn:Ec; [|discriminate].
    cbn [mbind result_bind].
    destruct (scaled_width ws 64) as [n0|] eqn:E0; [|discriminate].
    intros [= <-].
    destruct (scale_channels_inv _ _ _ _ Hpos Hlen Ec) as (ns & Hns & ->).
    exists ns, n0. auto.
  - intros [= <-]. exists (base_widths blocks), 64. auto.
Qed.

Lemma Forall2_results {A B : Type} (f : A -> result B) cs :
  (exists ns, Forall2 (fun c n => f c = Return n) cs ns)
  <-> Forall (fun c => exists n, f c = Return n) cs.
Proof.
  split.
  - intros [ns Hns]. induction Hns; constructor; eauto.
  - intros Hs. induction Hs as [|c l [n Hn] _ [ns IH]].
    + exists []. constructor.
    + exists (n :: ns). constructor; assumption.
Qed.

(** X3. [get_preresnet] returns a network only if the block count is in
    the table, [pretrained] is false, and either the width scale equals
    1.0 or [int(c * width_scale)] succeeds for 64 and for each base
    width. *)
Theorem get_preresnet_returns_only_if (blocks : Z) (conv1_stride : bool)
  (width_scale : float) (pretrained : bool) (kwargs : net_kwargs)
  (net : PreResNet.t) :
  get_preresnet blocks conv1_stride width_scale pretrained kwargs
  = Return net ->
  In blocks (map fst layers_table)
  /\ pretrained = false
  /\ (float_ne width_scale float_1_0 = false
      \/ Forall (fun c => exists n, scaled_width width_scale c = Return n)
           (64 :: base_widths blocks)).
Proof.
  intros Hnet.
  destruct (in_dec Z.eq_dec blocks (map fst layers_table)) as [Hin|Hn];
    [|rewrite get_preresnet_unsupported in Hnet by exact Hn; discriminate].
  split; [exact Hin|].
  destruct pretrained;
    [exfalso; exact (get_preresnet_pretrained _ _ _ _ _ Hnet)|].
  split; [reflexivity|].
  apply in_map_iff in Hin as ([b layers] & <- & Hin).
  change ((b, layers).1) with b in *.
  destruct (get_preresnet_returns_uniform _ _ _ _ _ _ Hin Hnet)
    as (ns & n0 & _ & Hs).
  destruct (float_ne width_scale float_1_0); [right | left; reflexivity].
  destruct Hs as [Hns H0]. constructor; [eauto|].
  apply Forall2_results. eauto.
Qed.

Lemma get_preresnet_returns_only_if_witness :
  exists net,
    get_preresnet 18 true float_0_75 false (mk_net_kwargs None None)
    = Return net
    /\ In 18 (map fst layers_table)
    /\ Forall (fun c => exists n, scaled_width float_0_75 c = Return n)
         (64 :: base_widths 18).
Proof.
  eexists. split; [reflexivity|].
  destruct (get_preresnet_returns_only_if 18 true float_0_75 false
              (mk_net_kwargs None None) _ eq_refl) as (Hin & _ & [Hne|Hall]).
  - split; [exact Hin|]. discriminate Hne.
  - split; [exact Hin | exact Hall].
Defined.

(** X4. For a block count of the table and a width scale other than 1.0,
    a failure of [int(c * width_scale)] on the first base width is the
    failure of the call, with [pretrained] set or not: the widths are
    converted before [pretrained] is looked at.  NaN is such a scale. *)
Theorem conversion_error_first (blocks : Z) (layers : list Z)
  (conv1_stride : bool) (width_scale : float) (pretrained : bool)
  (kwargs : net_kwargs) (e : exn) :
  In (blocks, layers) layers_table ->
  float_ne width_scale float_1_0 = true ->
  scaled_width width_scale (if blocks <? 50 then 64 else 256) = Raise e ->
  get_preresnet blocks conv1_stride width_scale pretrained kwargs = Raise e.
Proof.
  intros Hin Hne He.
  rewrite (get_preresnet_supported _ _ _ _ _ _ Hin), Hne.
  assert (Hrow : exists l rest c,
            zip_with list_repeat (base_widths blocks) layers
            = list_repeat c l :: rest
            /\ 0 < l /\ c = (if blocks <? 50 then 64 else 256)).
  { table_cases Hin; eexists _, _, _;
      (split; [cbn -[list_repeat]; reflexivity|]); split;
      (lia || reflexivity). }
  destruct Hrow as (l & rest & c & -> & Hl & ->).
  cbn [comprehension]. unfold list_repeat at 1.
  destruct (Z.to_nat l) as [|k] eqn:Hk; [lia|].
  cbn [replicate comprehension]. rewrite He. reflexivity.
Qed.

Lemma conversion_error_first_witness :
  In (50, [3; 4; 6; 3]) layers_table
  /\ float_ne S754_nan float_1_0 = true
  /\ get_preresnet 50 true S754_nan true (mk_net_kwargs None None)
     = Raise (ValueError "cannot convert float NaN to integer").
Proof.
  assert (Hin : In (50, [3; 4; 6; 3]) layers_table) by (simpl; tauto).
  split; [exact Hin|]. split; [reflexivity|].
  apply (conversion_error_first 50 [3; 4; 6; 3] true S754_nan true
           (mk_net_kwargs None None) _ Hin eq_refl eq_refl).
Defined.

(** ** What [conv1_stride] can change *)

Lemma stage_units_plain c c' i l : forall j cin,
  stage_units false c i j cin l = stage_units false c' i j cin l.
Proof.
  induction l as [|o l IH]; intros j cin; [reflexivity|].
  cbn [stage_units]. rewrite IH. reflexivity.
Qed.

Lemma net_stages_plain c c' channels : forall i cin,
  net_stages false c i cin channels = net_stages false c' i cin channels.
Proof.
  induction channels as [|l channels IH]; intros i cin; [reflexivity|].
  cbn [net_stages]. rewrite (stage_units_plain c c'), IH. reflexivity.
Qed.

(** X5. For [blocks < 50] the value of [conv1_stride] changes nothing:
    [get_preresnet] gives the same outcome, network or error, for both. *)
Theorem conv1_stride_unused_below_50 (blocks : Z) (width_scale : float)
  (pretrained : bool) (kwargs : net_kwargs) :
  blocks < 50 ->
  get_preresnet blocks true width_scale pretrained kwargs
  = get_preresnet blocks false width_scale pretrained kwargs.
Proof.
  intros Hlt.
  destruct (in_dec Z.eq_dec blocks (map fst layers_table)) as [Hin|Hn];
    [|rewrite !get_preresnet_unsupported by exact Hn; reflexivity].
  apply in_map_iff in Hin as ([b layers] & <- & Hin).
  change ((b, layers).1) with b in *.
  rewrite !(get_preresnet_supported _ _ _ _ _ _ Hin).
  apply Z.ltb_lt in Hlt. rewrite Hlt. cbn [negb].
  destruct (if float_ne width_scale float_1_0 then _ else _)
    as [[channels n0]|]; [|reflexivity].
  cbn [mbind result_bind]. destruct pretrained; [reflexivity|].
  rewrite !PreResNet_init_closed, (net_stages_plain true false).
  reflexivity.
Qed.

Lemma conv1_stride_unused_below_50_witness :
  34 < 50
  /\ get_preresnet 34 true float_0_5 false (mk_net_kwargs None None)
     = get_preresnet 34 false float_0_5 false (mk_net_kwargs None None).
Proof.
  split; [lia|].
  apply (conv1_stride_unused_below_50 34 float_0_5 false
           (mk_net_kwargs None None)).
  lia.
Defined.

(** ** Where the projections are *)

Lemma stage_units_replicate_lookup b cs i k n : forall j0 cin j u,
  stage_units b cs i j0 cin (replicate k n) !! j = Some u ->
  u = PreResUnit.__init__ (match j with O => cin | S _ => n end) n
        (unit_stride_at i (j0 + j)) b cs.
Proof.
  induction k as [|k IH]; intros j0 cin j u Hu; [discriminate|].
  cbn [replicate stage_units] in Hu. destruct j as [|j]; simpl in Hu.
  - injection Hu as <-. rewrite Nat.add_0_r. reflexivity.
  - apply IH in Hu. rewrite Nat.add_succ_r.
    destruct j; exact Hu.
Qed.

Lemma net_stages_lookup_channels b cs channels : forall i0 cin i stage,
  net_stages b cs i0 cin channels !! i = Some stage ->
  exists cin' l,
    channels !! i = Some l
    /\ stage = stage_units b cs (i0 + i) 0 cin' l.
Proof.
  induction channels as [|l channels IH]; intros i0 cin i stage Hi;
    [discriminate|].
  destruct i as [|i]; simpl in Hi.
  - injection Hi as <-. rewrite Nat.add_0_r. exists cin, l. auto.
  - apply IH in Hi as (cin' & l' & Hl & ->). rewrite Nat.add_succ_r.
    exists cin', l'. auto.
Qed.

(** X6. In a network [get_preresnet] returns, no unit after the first of
    its stage has an identity projection, and the first unit of every stage
    but the first has one, of stride 2. *)
Theorem projection_placement (blocks : Z) (layers : list Z)
  (conv1_stride : bool) (width_scale : float) (kwargs : net_kwargs)
  (net : PreResNet.t) (i j : nat) (stage : list PreResUnit.t)
  (u : PreResUnit.t) :
  In (blocks, layers) layers_table ->
  get_preresnet blocks conv1_stride width_scale false kwargs = Return net ->
  PreResNet.stages (PreResNet.features net) !! i = Some stage ->
  stage !! j = Some u ->
  (j <> 0%nat ->
   PreResUnit.resize_identity u = false
   /\ PreResUnit.identity_conv u = None)
  /\ (i <> 0%nat -> j = 0%nat ->
      PreResUnit.resize_identity u = true
      /\ exists cin cout,
           PreResUnit.identity_conv u = Some (conv1x1 cin cout 2)).
Proof.
  intros Hin Hnet Hi Hj.
  destruct (get_preresnet_returns_uniform _ _ _ _ _ _ Hin Hnet)
    as (ns & n0 & -> & _).
  rewrite PreResNet_init_closed in Hi.
  cbn [PreResNet.stages PreResNet.features] in Hi.
  destruct (net_stages_lookup_channels _ _ _ _ _ _ _ Hi)
    as (cin & l & Hl & ->).
  apply lookup_zip_with_Some in Hl as (n & k & -> & _ & _).
  unfold list_repeat in Hj.
  apply stage_units_replicate_lookup in Hj. subst u. split.
  - intros Hj0. destruct j as [|j]; [contradiction|].
    assert (Hs : unit_stride_at (0 + i) (0 + S j) = 1).
    { unfold unit_stride_at. simpl. rewrite orb_true_r. reflexivity. }
    rewrite Hs. unfold PreResUnit.__init__.
    cbn [PreResUnit.resize_identity PreResUnit.identity_conv].
    rewrite !Z.eqb_refl. auto.
  - intros Hi0 ->. destruct i as [|i]; [contradiction|].
    change (unit_stride_at (0 + S i) (0 + 0)) with 2.
    unfold PreResUnit.__init__.
    cbn [PreResUnit.resize_identity PreResUnit.identity_conv].
    change (negb (2 =? 1)) with true. rewrite orb_true_r. eauto.
Qed.

Lemma projection_placement_witness :
  exists net stage u,
    get_preresnet 18 true float_1_0 false (mk_net_kwargs None None)
    = Return net
    /\ PreResNet.stages (PreResNet.features net) !! 1%nat = Some stage
    /\ stage !! 0%nat = Some u
    /\ PreResUnit.resize_identity u = true.
Proof.
  assert (Hin : In (18, [2; 2; 2; 2]) layers_table) by (simpl; tauto).
  eexists _, _, _. split; [reflexivity|]. split; [reflexivity|].
  split; [reflexivity|].
  destruct (projection_placement 18 [2; 2; 2; 2] true float_1_0
              (mk_net_kwargs None None) _ 1%nat 0%nat _ _ Hin eq_refl eq_refl
              eq_refl) as [_ Hfirst].
  destruct (Hfirst ltac:(discriminate) eq_refl) as [Hr _]. exact Hr.
Defined.

(** ** The convolutions of a built network *)





(** ** Keywords of the preset functions *)

(** The width-scaled and the stride-variant presets are the plain
    presets with one keyword written out: [preresnet18(width_scale=w)] is
    [preresnet18_w3d4()], [preresnet18_wd2()], [preresnet18_wd4()] for
    [w] = 0.75, 0.5, 0.25, and [preresnetN(conv1_stride=False)] is
    [preresnetNb()] for N = 50, 101, 152, 200, whatever the other
    keywords. *)
Lemma presets_are_keywords (conv1_stride : option bool)
  (width_scale : option float) (pretrained : option bool)
  (kwargs : net_kwargs) :
  let scaled w := mk_kwargs conv1_stride (Some w) pretrained kwargs in
  let unscaled := mk_kwargs conv1_stride None pretrained kwargs in
  let variant := mk_kwargs (Some false) width_scale pretrained kwargs in
  let plain := mk_kwargs None width_scale pretrained kwargs in
  preresnet18 (scaled float_0_75) = preresnet18_w3d4 unscaled
  /\ preresnet18 (scaled float_0_5) = preresnet18_wd2 unscaled
  /\ preresnet18 (scaled float_0_25) = preresnet18_wd4 unscaled
  /\ preresnet50 variant = preresnet50b plain
  /\ preresnet101 variant = preresnet101b plain
  /\ preresnet152 variant = preresnet152b plain
  /\ preresnet200 variant = preresnet200b plain.
Proof.
  intros scaled unscaled variant plain.
  unfold scaled, unscaled, variant, plain.
  destruct conv1_stride, width_scale; repeat split; reflexivity.
Qed.

(** X8. A preset that writes [width_scale] or [conv1_stride] itself cannot
    be given that keyword again: the call raises a [TypeError], whatever
    the other keywords, and [get_preresnet] is not entered. *)
Theorem presets_reject_repeated_keyword (conv1_stride : option bool)
  (width_scale : option float) (pretrained : option bool)
  (kwargs : net_kwargs) (w : float) (c : bool) :
  let twice_scaled := mk_kwargs conv1_stride (Some w) pretrained kwargs in
  let twice_variant := mk_kwargs (Some c) width_scale pretrained kwargs in
  Forall (fun preset => exists msg, preset twice_scaled = Raise (TypeError msg))
    [preresnet18_w3d4; preresnet18_wd2; preresnet18_wd4]
  /\ Forall
       (fun preset => exists msg, preset twice_variant = Raise (TypeError msg))
       [preresnet50b; preresnet101b; preresnet152b; preresnet200b].
Proof.
  intros twice_scaled twice_variant. unfold twice_scaled, twice_variant.
  destruct conv1_stride, width_scale;
    split; repeat constructor; eexists; reflexivity.
Qed.

(** ** How the parameter count depends on the interface *)

Lemma weight_sum_acc (l : list shape) (a : Z) :
  fold_left (fun w p => w + np_prod p) l a
  = a + fold_left (fun w p => w + np_prod p) l 0.
Proof.
  revert a. induction l as [|p l IH]; intros a; simpl; [lia|].
  rewrite (IH (a + np_prod p)), (IH (0 + np_prod p)). lia.
Qed.

(** X9. The parameter count of a built network is affine in the number
    of input channels and in the number of classes: each input channel
    costs [49 * init_block_channels] weights of the 7x7 convolution, and
    each class costs one row of the classifier and one bias. *)
Theorem weight_count_interface (channels : list (list Z))
  (init_block_channels : Z) (bottleneck conv1_stride : bool)
  (in_channels num_classes : Z) :
  weight_count
    (PreResNet.__init__ channels init_block_channels bottleneck conv1_stride
       in_channels num_classes)
  = weight_count
      (PreResNet.__init__ channels init_block_channels bottleneck
         conv1_stride 0 0)
    + 49 * init_block_channels * in_channels
    + num_classes
      * (Linear.in_features
           (PreResNet.output
              (PreResNet.__init__ channels init_block_channels bottleneck
                 conv1_stride in_channels num_classes))
         + 1).
Proof.
  rewrite !PreResNet_init_closed.
  unfold weight_count, PreResNet.parameters.
  cbn [PreResNet.features PreResNet.stages PreResNet.init_block
       PreResNet.post_activ PreResNet.final_pool PreResNet.output
       Linear.in_features].
  rewrite !fold_left_app.
  repeat match goal with
         | |- context [fold_left (fun w p => w + np_prod p) ?l ?a] =>
             lazymatch a with
             | 0 => fail
             | _ => rewrite (weight_sum_acc l a)
             end
         end.
  unfold np_prod. simpl. lia.
Qed.

(** ** The forward pass of the whole network *)

Ltac kept := solve [repeat first [eassumption | apply lookup_app_l_Some]].

Section ForwardLemmas.
Context {N : NetOps}.

Lemma bind_assoc_at {A B C : Type} (m : fwd A) (f : A -> fwd B)
  (g : B -> fwd C) (h : store) :
  (m ≫= (fun a => f a ≫= g)) h = ((m ≫= f) ≫= g) h.
Proof.
  unfold mbind, fwd_bind. destruct (m h) as [[a h']|]; reflexivity.
Qed.

Lemma runs_bind_assoc {A B C : Type} (m : fwd A) (f : A -> fwd B)
  (g : B -> fwd C) h Q :
  runs ((m ≫= f) ≫= g) h Q -> runs (m ≫= (fun a => f a ≫= g)) h Q.
Proof. unfold runs. rewrite bind_assoc_at. auto. Qed.

Lemma runs_apply (f : tensor -> tensor) x h v :
  h !! x = Some v ->
  runs (v ← load x; new (f v)) h (fun y h' => h' !! y = Some (f v)).
Proof.
  intros Hx. unfold mbind, fwd_bind, load.
  destruct (runs_new (f v) h) as (r & ext & Hn & Hr).
  exists r, ext. rewrite Hx. auto.
Qed.

(** Normalization followed by activation, in place or not. *)
Lemma runs_norm_activ bn activ x h v :
  h !! x = Some v ->
  runs (BatchNorm2d_forward bn x ≫= ReLU_forward activ) h
    (fun p h' => h' !! p = Some (relu (batch_norm bn v))).
Proof.
  intros Hx. unfold runs, BatchNorm2d_forward, ReLU_forward.
  unfold mbind, fwd_bind, mret, fwd_ret, load, new, overwrite.
  rewrite Hx, lookup_new.
  set (b := batch_norm bn v).
  destruct (ReLU.inplace activ).
  - destruct (decide _) as [_|Hn];
      [|rewrite length_app in Hn; simpl in Hn; lia].
    rewrite overwrite_new.
    exists (length h), [relu b]. split; [reflexivity | apply lookup_new].
  - exists (length (h ++ [b])), [b; relu b].
    replace (h ++ [b; relu b]) with ((h ++ [b]) ++ [relu b])
      by (rewrite <- app_assoc; reflexivity).
    split; [reflexivity | apply lookup_new].
Qed.

Lemma runs_unit (u : PreResUnit.t) x h v :
  projection_present u ->
  h !! x = Some v ->
  runs (PreResUnit.forward u x) h
    (fun y h' => h' !! y = Some (unit_value u v)).
Proof.
  intros Hu Hx. unfold PreResUnit.forward, unit_value, identity_value.
  apply runs_bind. eapply runs_weaken; [apply runs_body, Hx|].
  intros [y p] e1 (Hy & Hp & Hx1).
  unfold projection_present in Hu.
  destruct (PreResUnit.resize_identity u).
  - destruct (Hu eq_refl) as [c Hc]. rewrite Hc.
    apply runs_bind. eapply runs_weaken; [apply runs_Conv2d, Hp|].
    intros i e2 Hi. simpl in Hi.
    eapply runs_weaken; [apply runs_add; [kept | exact Hi]|].
    intros z e3 Hz. exact Hz.
  - apply runs_bind, runs_ret.
    eapply runs_weaken; [apply runs_add; [exact Hy | exact Hx1]|].
    intros z e3 Hz. exact Hz.
Qed.

Lemma runs_Sequential {M : Type} (forward : M -> ref -> fwd ref)
  (value : M -> tensor -> tensor) (modules : list M) :
  Forall
    (fun m => forall x h v, h !! x = Some v ->
       runs (forward m x) h (fun y h' => h' !! y = Some (value m v)))
    modules ->
  forall x h v, h !! x = Some v ->
  runs (Sequential_forward forward modules x) h
    (fun y h' => h' !! y = Some (fold_left (fun v m => value m v) modules v)).
Proof.
  intros Hall. induction Hall as [|m ms Hm _ IH]; intros x h v Hx.
  - apply runs_ret. exact Hx.
  - cbn [Sequential_forward fold_left]. apply runs_bind.
    eapply runs_weaken; [apply Hm, Hx|].
    intros y e Hy. apply IH, Hy.
Qed.

Lemma runs_init_block b x h v :
  h !! x = Some v ->
  runs (PreResInitBlock.forward b x) h
    (fun y h' => h' !! y = Some (init_block_value b v)).
Proof.
  intros Hx. unfold PreResInitBlock.forward, init_block_value.
  apply runs_bind. eapply runs_weaken; [apply runs_Conv2d, Hx|].
  intros c e1 Hc. apply runs_bind_assoc, runs_bind.
  eapply runs_weaken; [apply runs_norm_activ, Hc|].
  intros a e2 Ha. apply runs_bind.
  eapply runs_weaken;
    [apply (runs_apply (max_pool2d (PreResInitBlock.pool b))), Ha|].
  intros y e3 Hy. apply runs_ret. exact Hy.
Qed.

Lemma runs_activation (a : PreResActivation.t) x h v :
  h !! x = Some v ->
  runs (PreResActivation.forward a x) h
    (fun p h' =>
       h' !! p = Some (relu (batch_norm (PreResActivation.bn a) v))).
Proof.
  intros Hx. unfold PreResActivation.forward.
  apply runs_bind_assoc, runs_bind.
  eapply runs_weaken; [apply runs_norm_activ, Hx|].
  intros p e Hp. apply runs_ret. exact Hp.
Qed.

Lemma runs_features (f : PreResNet.features_t) x h v :
  Forall (Forall projection_present) (PreResNet.stages f) ->
  h !! x = Some v ->
  runs (PreResNet.features_forward f x) h
    (fun y h' => h' !! y = Some (features_value f v)).
Proof.
  intros Hf Hx. unfold PreResNet.features_forward, features_value.
  apply runs_bind. eapply runs_weaken; [apply runs_init_block, Hx|].
  intros a e1 Ha. apply runs_bind.
  eapply runs_weaken.
  { apply (runs_Sequential _ stage_value); [|exact Ha].
    eapply Forall_impl; [exact Hf|]. intros stage Hstage x' h' v' Hx'.
    apply (runs_Sequential _ unit_value); [|exact Hx'].
    eapply Forall_impl; [exact Hstage|]. intros u Hu x'' h'' v'' Hx''.
    apply runs_unit; assumption. }
  intros s e2 Hs. apply runs_bind.
  eapply runs_weaken; [apply runs_activation, Hs|].
  intros p e3 Hp.
  apply (runs_apply (avg_pool2d (PreResNet.final_pool f))), Hp.
Qed.

Lemma runs_net (net : PreResNet.t) x h v :
  Forall (Forall projection_present)
    (PreResNet.stages (PreResNet.features net)) ->
  h !! x = Some v ->
  runs (PreResNet.forward net x) h
    (fun y h' => h' !! y = Some (net_value net v)).
Proof.
  intros Hnet Hx. unfold PreResNet.forward, net_value.
  apply runs_bind. eapply runs_weaken; [apply runs_features; eassumption|].
  intros f e1 Hf. apply runs_bind.
  eapply runs_weaken; [apply (runs_apply view_rows), Hf|].
  intros w e2 Hw. apply runs_bind.
  eapply runs_weaken; [apply (runs_apply (linear (PreResNet.output net))), Hw|].
  intros y e3 Hy. apply runs_ret. exact Hy.
Qed.
End ForwardLemmas.

Lemma init_projection_present cin cout s b c :
  projection_present (PreResUnit.__init__ cin cout s b c).
Proof.
  unfold projection_present, PreResUnit.__init__.
  cbn [PreResUnit.resize_identity PreResUnit.identity_conv].
  intros ->. eauto.
Qed.

Lemma net_stages_projection_present b cs channels : forall i cin,
  Forall (Forall projection_present) (net_stages b cs i cin channels).
Proof.
  induction channels as [|l channels IH]; intros i cin; [constructor|].
  cbn [net_stages]. constructor; [|apply IH].
  generalize 0%nat. revert cin.
  induction l as [|o l IHl]; intros cin j; [constructor|].
  cbn [stage_units]. constructor;
    [apply init_projection_present | apply IHl].
Qed.

(** X10. Whatever the kernels of the tensor library compute, taken here
    as functions that return (a kernel that raises ends the real call at
    that layer), [forward] of a built network, run on a store that holds
    the input [v] at [x], meets no unit whose [identity_conv] is missing,
    returns a tensor holding the value of the layers applied in order
    (init block, units, post-activation, pool, view, classifier), and
    leaves the input tensor as it was: each in-place activation overwrites
    the tensor the normalization before it has just made.  The running
    statistics of a batch norm are state of the module, not of the
    store. *)
Theorem PreResNet_forward_runs {N : NetOps} (channels : list (list Z))
  (init_block_channels : Z) (bottleneck conv1_stride : bool)
  (in_channels num_classes : Z) (h : store) (x : ref) (v : tensor) :
  h !! x = Some v ->
  let net :=
    PreResNet.__init__ channels init_block_channels bottleneck conv1_stride
      in_channels num_classes in
  exists y h',
    PreResNet.forward net x h = Some (y, h')
    /\ h' !! y = Some (net_value net v)
    /\ h' !! x = Some v.
Proof.
  intros Hx net.
  destruct (runs_net net x h v) as (y & ext & Hrun & Hy); [|exact Hx|].
  - unfold net. rewrite PreResNet_init_closed.
    cbn [PreResNet.features PreResNet.stages].
    apply net_stages_projection_present.
  - exists y, (h ++ ext). split; [exact Hrun|]. split; [exact Hy|].
    apply lookup_app_l_Some, Hx.
Qed.

(** ** Shapes through a unit and through the network *)

Lemma strided_1 n : strided 1 n = n.
Proof. unfold strided. rewrite Z.div_1_r. lia. Qed.

Lemma strided_pos s n : 0 < s -> 1 <= n -> 1 <= strided s n.
Proof.
  intros Hs Hn. unfold strided.
  assert (0 <= (n - 1) / s) by (apply Z.div_pos; lia). lia.
Qed.

Lemma window_3_1 n s :
  0 < s -> 1 <= n -> window_out n 3 s 1 = Some (strided s n).
Proof.
  intros Hs Hn. unfold window_out, strided.
  destruct (Z.ltb_spec 0 s); [|lia]. destruct (Z.leb_spec 3 (n + 2 * 1)); [|lia].
  cbn [andb]. replace (n + 2 * 1 - 3) with (n - 1) by lia. reflexivity.
Qed.

Lemma window_1_0 n s :
  0 < s -> 1 <= n -> window_out n 1 s 0 = Some (strided s n).
Proof.
  intros Hs Hn. unfold window_out, strided.
  destruct (Z.ltb_spec 0 s); [|lia]. destruct (Z.leb_spec 1 (n + 2 * 0)); [|lia].
  cbn [andb]. replace (n + 2 * 0 - 1) with (n - 1) by lia. reflexivity.
Qed.

Lemma window_7_3 n :
  1 <= n -> window_out n 7 2 3 = Some (strided 2 n).
Proof.
  intros Hn. unfold window_out, strided.
  destruct (Z.leb_spec 7 (n + 2 * 3)); [|lia].
  cbn [andb Z.ltb Z.compare]. replace (n + 2 * 3 - 7) with (n - 1) by lia.
  reflexivity.
Qed.

Lemma shape_add_same (a : shape) :
  tensor_add (TensorOps := shape_tensors) (Some a) (Some a) = Some a.
Proof. simpl. unfold shape_add. destruct (decide (a = a)); congruence. Qed.

Lemma shape_pre_activ cin cout k s p n h w :
  pre_activ_value (T := shape_tensors) (PreResConv.__init__ cin cout k s p)
    (Some [n; cin; h; w])
  = Some [n; cin; h; w].
Proof.
  unfold pre_activ_value. simpl. rewrite Z.eqb_refl. reflexivity.
Qed.

Lemma shape_conv1x1 cin cout s n h w :
  0 < s -> 1 <= h -> 1 <= w ->
  conv2d (TensorOps := shape_tensors) (conv1x1 cin cout s)
    (Some [n; cin; h; w])
  = Some [n; cout; strided s h; strided s w].
Proof.
  intros Hs Hh Hw. simpl. rewrite Z.eqb_refl.
  rewrite !window_1_0 by assumption. reflexivity.
Qed.

Lemma shape_preres_conv1x1 cin cout s n h w :
  0 < s -> 1 <= h -> 1 <= w ->
  preres_conv_value (T := shape_tensors) (preres_conv1x1 cin cout s)
    (Some [n; cin; h; w])
  = Some [n; cout; strided s h; strided s w].
Proof.
  intros Hs Hh Hw. unfold preres_conv_value, preres_conv1x1.
  rewrite shape_pre_activ. apply (shape_conv1x1 cin cout s); assumption.
Qed.

Lemma shape_preres_conv3x3 cin cout s n h w :
  0 < s -> 1 <= h -> 1 <= w ->
  preres_conv_value (T := shape_tensors) (preres_conv3x3 cin cout s)
    (Some [n; cin; h; w])
  = Some [n; cout; strided s h; strided s w].
Proof.
  intros Hs Hh Hw. unfold preres_conv_value, preres_conv3x3.
  rewrite shape_pre_activ. simpl. rewrite Z.eqb_refl.
  rewrite !window_3_1 by assumption. reflexivity.
Qed.

Lemma shape_body cin cout s b c n h w :
  0 < s -> 1 <= h -> 1 <= w ->
  body_value (T := shape_tensors)
    (PreResUnit.body (PreResUnit.__init__ cin cout s b c))
    (Some [n; cin; h; w])
  = Some [n; cout; strided s h; strided s w].
Proof.
  intros Hs Hh Hw.
  pose proof (strided_pos s h Hs Hh). pose proof (strided_pos s w Hs Hw).
  destruct b; [destruct c|];
    cbn [PreResUnit.__init__ PreResUnit.body body_value
         PreResBlock.__init__ PreResBlock.conv1 PreResBlock.conv2
         PreResBottleneck.__init__ PreResBottleneck.conv1
         PreResBottleneck.conv2 PreResBottleneck.conv3].
  - rewrite (shape_preres_conv1x1 _ _ s) by assumption.
    rewrite (shape_preres_conv3x3 _ _ 1) by (assumption || lia).
    rewrite (shape_preres_conv1x1 _ _ 1)
      by (rewrite ?strided_1; assumption || lia).
    rewrite !strided_1. reflexivity.
  - rewrite (shape_preres_conv1x1 _ _ 1) by (assumption || lia).
    rewrite !strided_1.
    rewrite (shape_preres_conv3x3 _ _ s) by assumption.
    rewrite (shape_preres_conv1x1 _ _ 1) by (assumption || lia).
    rewrite !strided_1. reflexivity.
  - rewrite (shape_preres_conv3x3 _ _ s) by assumption.
    rewrite (shape_preres_conv3x3 _ _ 1) by (assumption || lia).
    rewrite !strided_1. reflexivity.
Qed.

Lemma shape_body_pre_activ cin cout s b c n h w :
  body_pre_activ (T := shape_tensors)
    (PreResUnit.body (PreResUnit.__init__ cin cout s b c))
    (Some [n; cin; h; w])
  = Some [n; cin; h; w].
Proof. destruct b; apply shape_pre_activ. Qed.

(** The shape rules carried through a unit. *)
Lemma unit_value_shape cin cout s b c n h w :
  0 < s -> 1 <= h -> 1 <= w ->
  unit_value (T := shape_tensors) (PreResUnit.__init__ cin cout s b c)
    (Some [n; cin; h; w])
  = Some [n; cout; strided s h; strided s w].
Proof.
  intros Hs Hh Hw.
  unfold unit_value. rewrite shape_body by assumption.
  unfold identity_value. rewrite shape_body_pre_activ.
  cbn [PreResUnit.__init__ PreResUnit.resize_identity
       PreResUnit.identity_conv].
  destruct (negb (cin =? cout) || negb (s =? 1)) eqn:Hresize.
  - rewrite (shape_conv1x1 cin cout s) by assumption.
    apply shape_add_same.
  - apply orb_false_iff in Hresize as [Hc Hst].
    apply negb_false_iff, Z.eqb_eq in Hc, Hst. subst.
    rewrite !strided_1. apply shape_add_same.
Qed.

(** X11. Under the shape rules of the tensor library, a unit built with
    positive [in_channels] and [out_channels] ([out_channels] at least 4
    for a bottleneck, so that the mid width is positive) and a positive
    [stride] turns an input of shape (n, in_channels, h, w), with [n], [h]
    and [w] at least 1 and more than one value per channel left after the
    stride, into (n, out_channels, (h-1)//stride + 1, (w-1)//stride + 1):
    the body and the identity branch reach the addition with the same
    shape, for both kinds of block and both placements of the stride. *)
Theorem unit_shape (in_channels out_channels stride : Z)
  (bottleneck conv1_stride : bool) (n h w : Z) :
  0 < in_channels -> 0 < out_channels ->
  (bottleneck = true -> 4 <= out_channels) ->
  0 < stride -> 1 <= n -> 1 <= h -> 1 <= w ->
  1 < n * strided stride h * strided stride w ->
  unit_value (T := shape_tensors)
    (PreResUnit.__init__ in_channels out_channels stride bottleneck
       conv1_stride)
    (Some [n; in_channels; h; w])
  = Some [n; out_channels; strided stride h; strided stride w].
Proof.
  intros _ _ _ Hs _ Hh Hw _. apply unit_value_shape; assumption.
Qed.

Lemma unit_shape_witness :
  0 < 64 /\ 0 < 128 /\ 4 <= 128 /\ 0 < 2 /\ 1 <= 8 /\ 1 <= 56
  /\ 1 < 8 * strided 2 56 * strided 2 56
  /\ unit_value (T := shape_tensors) (PreResUnit.__init__ 64 128 2 true false)
       (Some [8; 64; 56; 56])
     = Some [8; 128; 28; 28].
Proof.
  assert (Hmany : 1 < 8 * strided 2 56 * strided 2 56)
    by (vm_compute; reflexivity).
  repeat (split; [lia || exact Hmany|]).
  apply (unit_shape 64 128 2 true false 8 56 56);
    (lia || exact Hmany || (intros _; lia)).
Defined.

Lemma stage_extent_pos i l e : 1 <= e -> 1 <= stage_extent i l e.
Proof.
  intros He. unfold stage_extent. destruct l, i; try assumption.
  apply strided_pos; lia.
Qed.

Section ShapeOfStages.
Variables bottleneck conv1_stride : bool.

Lemma stage_units_shape_flat i l : forall j cin n h w,
  (i = 0 \/ j <> 0)%nat -> 1 <= h -> 1 <= w ->
  stage_value (T := shape_tensors)
    (stage_units bottleneck conv1_stride i j cin l) (Some [n; cin; h; w])
  = Some [n; List.last l cin; h; w].
Proof.
  induction l as [|o l IH]; intros j cin n h w Hij Hh Hw; [reflexivity|].
  unfold stage_value in *. cbn [stage_units fold_left].
  assert (Hs : unit_stride_at i j = 1).
  { unfold unit_stride_at. destruct Hij as [-> | Hj]; [reflexivity|].
    destruct j; [contradiction|]. rewrite orb_true_r. reflexivity. }
  rewrite Hs, unit_value_shape by (assumption || lia). rewrite !strided_1.
  rewrite IH by (assumption || (right; discriminate)).
  rewrite last_cons_default. reflexivity.
Qed.

Lemma stage_units_shape i l cin n h w :
  1 <= h -> 1 <= w ->
  stage_value (T := shape_tensors)
    (stage_units bottleneck conv1_stride i 0 cin l) (Some [n; cin; h; w])
  = Some [n; List.last l cin; stage_extent i l h; stage_extent i l w].
Proof.
  intros Hh Hw. destruct i as [|i].
  - rewrite stage_units_shape_flat by (assumption || (left; reflexivity)).
    destruct l; reflexivity.
  - destruct l as [|o l]; [reflexivity|].
    unfold stage_value. cbn [stage_units fold_left stage_extent].
    change (unit_stride_at (S i) 0) with 2.
    rewrite unit_value_shape by (assumption || lia).
    pose proof (strided_pos 2 h ltac:(lia) Hh).
    pose proof (strided_pos 2 w ltac:(lia) Hw).
    fold (stage_value (T := shape_tensors)
            (stage_units bottleneck conv1_stride (S i) 1 o l)
            (Some [n; o; strided 2 h; strided 2 w])).
    rewrite stage_units_shape_flat by (assumption || (right; discriminate)).
    rewrite last_cons_default. reflexivity.
Qed.

Lemma net_stages_shape channels : forall i cin n h w,
  1 <= h -> 1 <= w ->
  stages_value (T := shape_tensors)
    (net_stages bottleneck conv1_stride i cin channels)
    (Some [n; cin; h; w])
  = Some [n; net_end cin channels; stages_extent i channels h;
          stages_extent i channels w].
Proof.
  induction channels as [|l channels IH]; intros i cin n h w Hh Hw;
    [reflexivity|].
  unfold stages_value in *. cbn [net_stages fold_left net_end stages_extent].
  rewrite stage_units_shape by assumption.
  apply IH; apply stage_extent_pos; assumption.
Qed.
End ShapeOfStages.

Lemma shape_batch_norm_same c n h w :
  shape_batch_norm (BatchNorm2d.mk c) (Some [n; c; h; w])
  = Some [n; c; h; w].
Proof. unfold shape_batch_norm. simpl. rewrite Z.eqb_refl. reflexivity. Qed.

Lemma shape_init_block cin cout n h w :
  1 <= h -> 1 <= w ->
  init_block_value (N := shape_ops) (PreResInitBlock.__init__ cin cout)
    (Some [n; cin; h; w])
  = Some [n; cout; strided 2 (strided 2 h); strided 2 (strided 2 w)].
Proof.
  intros Hh Hw. unfold init_block_value.
  cbn [PreResInitBlock.__init__ PreResInitBlock.conv PreResInitBlock.bn
       PreResInitBlock.pool max_pool2d relu batch_norm conv2d shape_ops
       shape_tensors net_tensor_ops].
  pose proof (strided_pos 2 h ltac:(lia) Hh) as Hh1.
  pose proof (strided_pos 2 w ltac:(lia) Hw) as Hw1.
  unfold shape_conv2d.
  cbn [Conv2d.in_channels Conv2d.out_channels Conv2d.kernel_size
       Conv2d.stride Conv2d.padding].
  rewrite Z.eqb_refl, !window_7_3 by assumption. cbn [mbind option_bind].
  rewrite shape_batch_norm_same. unfold shape_max_pool2d.
  cbn [MaxPool2d.kernel_size MaxPool2d.stride MaxPool2d.padding].
  rewrite !window_3_1 by (assumption || lia). reflexivity.
Qed.

Lemma window_7_1_0 e : 7 <= e -> window_out e 7 1 0 = Some (e - 6).
Proof.
  intros He. unfold window_out.
  destruct (Z.leb_spec 7 (e + 2 * 0)); [|lia].
  cbn [andb Z.ltb Z.compare]. rewrite Z.div_1_r. f_equal. lia.
Qed.

(** The shape a built network returns once the stages leave at least 7 by
    7: the final pool leaves [eh - 6] by [ew - 6], and the classifier takes
    the flattened result only if it is as wide as the last unit. *)
Lemma net_shape channels init_block_channels bottleneck conv1_stride
  in_channels num_classes n h w :
  1 <= h -> 1 <= w ->
  let eh := stages_extent 0 channels (strided 2 (strided 2 h)) in
  let ew := stages_extent 0 channels (strided 2 (strided 2 w)) in
  let width := net_end init_block_channels channels in
  7 <= eh -> 7 <= ew ->
  net_value (N := shape_ops)
    (PreResNet.__init__ channels init_block_channels bottleneck conv1_stride
       in_channels num_classes)
    (Some [n; in_channels; h; w])
  = (if width * ((eh - 6) * ((ew - 6) * 1)) =? width
     then Some [n; num_classes] else None).
Proof.
  intros Hh Hw eh ew width Eh Ew. rewrite PreResNet_init_closed.
  unfold net_value, features_value.
  cbn [PreResNet.features PreResNet.init_block PreResNet.stages
       PreResNet.post_activ PreResNet.final_pool PreResNet.output].
  rewrite shape_init_block by assumption.
  pose proof (strided_pos 2 h ltac:(lia) Hh) as Hh1.
  pose proof (strided_pos 2 w ltac:(lia) Hw) as Hw1.
  pose proof (strided_pos 2 _ ltac:(lia) Hh1) as Hh2.
  pose proof (strided_pos 2 _ ltac:(lia) Hw1) as Hw2.
  change (@stages_value (@net_tensor_ops shape_ops))
    with (@stages_value shape_tensors).
  rewrite (net_stages_shape bottleneck conv1_stride channels 0
             init_block_channels n _ _ Hh2 Hw2).
  fold eh ew width.
  cbn [PreResActivation.__init__ PreResActivation.bn linear view_rows
       avg_pool2d relu batch_norm shape_ops shape_tensors net_tensor_ops].
  rewrite shape_batch_norm_same. unfold shape_avg_pool2d.
  cbn [AvgPool2d.kernel_size AvgPool2d.stride].
  rewrite !window_7_1_0 by assumption. cbn [mbind option_bind].
  unfold shape_view_rows, shape_linear.
  cbn [fold_right Linear.in_features Linear.out_features]. reflexivity.
Qed.

Lemma stages_extent_lengths (c1 : list (list Z)) : forall c2 i e,
  map length c1 = map length c2 ->
  stages_extent i c1 e = stages_extent i c2 e.
Proof.
  induction c1 as [|l1 c1 IH]; intros [|l2 c2] i e Hlen;
    try discriminate; [reflexivity|].
  injection Hlen as Hl Hrest. cbn [stages_extent].
  replace (stage_extent i l2 e) with (stage_extent i l1 e);
    [apply IH, Hrest|].
  destruct l1, l2; try discriminate; reflexivity.
Qed.

Lemma table_extent blocks layers channels e :
  In (blocks, layers) layers_table ->
  map length channels
  = map length (zip_with list_repeat (base_widths blocks) layers) ->
  stages_extent 0 channels e = strided 2 (strided 2 (strided 2 e)).
Proof.
  intros Hin Hlen. rewrite (stages_extent_lengths _ _ _ _ Hlen).
  clear -Hin. table_cases Hin; reflexivity.
Qed.

Lemma five_halvings_7 h :
  193 <= h <= 224 ->
  strided 2 (strided 2 (strided 2 (strided 2 (strided 2 h)))) = 7.
Proof.
  intros H. unfold strided. Z.to_euclidean_division_equations. lia.
Qed.

Lemma five_halvings_8 h :
  225 <= h <= 256 ->
  strided 2 (strided 2 (strided 2 (strided 2 (strided 2 h)))) = 8.
Proof.
  intros H. unfold strided. Z.to_euclidean_division_equations. lia.
Qed.

(** X12. Under the shape rules of the tensor library, a network that
    [get_preresnet] returns and whose convolutions all have positive
    channel counts turns a batch of [n >= 1] images of [h] by [w] pixels,
    [h] and [w] from 193 to 224, with the input channels the network was
    built for, into [n] rows of [num_classes > 0] scores, as [_test]
    asserts for one image of 224 by 224: the last stage leaves 7 by 7, and
    the flattened pool has the width the classifier expects. *)
Theorem preresnet_output_shape (blocks : Z) (layers : list Z)
  (conv1_stride : bool) (width_scale : float) (kwargs : net_kwargs)
  (net : PreResNet.t) (n h w : Z) :
  In (blocks, layers) layers_table ->
  get_preresnet blocks conv1_stride width_scale false kwargs = Return net ->
  Forall (fun m => 0 < Conv2d.in_channels m /\ 0 < Conv2d.out_channels m)
    (PreResNet.conv2d_modules net) ->
  0 < default 1000 (kw_num_classes kwargs) ->
  1 <= n -> 193 <= h <= 224 -> 193 <= w <= 224 ->
  net_value (N := shape_ops) net
    (Some [n; default 3 (kw_in_channels kwargs); h; w])
  = Some [n; default 1000 (kw_num_classes kwargs)].
Proof.
  intros Hin Hnet _ _ _ Hh Hw.
  destruct (get_preresnet_returns _ _ _ _ _ _ Hin Hnet)
    as (channels & n0 & -> & Hlen).
  rewrite net_shape;
    rewrite ?(table_extent _ _ _ _ Hin Hlen), ?five_halvings_7
      by assumption; try lia.
  change ((7 - 6) * ((7 - 6) * 1)) with 1.
  rewrite Z.mul_1_r, Z.eqb_refl. reflexivity.
Qed.

Lemma preresnet_output_shape_witness :
  In (18, [2; 2; 2; 2]) layers_table
  /\ 1 <= 1 /\ 193 <= 224 <= 224
  /\ exists net,
       get_preresnet 18 true float_1_0 false (mk_net_kwargs None None)
       = Return net
       /\ Forall
            (fun m => 0 < Conv2d.in_channels m /\ 0 < Conv2d.out_channels m)
            (PreResNet.conv2d_modules net)
       /\ net_value (N := shape_ops) net (Some [1; 3; 224; 224])
          = Some [1; 1000].
Proof.
  assert (Hin : In (18, [2; 2; 2; 2]) layers_table) by (simpl; tauto).
  assert (Hpos : Forall
                   (fun m => 0 < Conv2d.in_channels m
                             /\ 0 < Conv2d.out_channels m)
                   (PreResNet.conv2d_modules
                      (PreResNet.__init__
                         [[64; 64]; [128; 128]; [256; 256]; [512; 512]] 64
                         false true 3 1000)))
    by (vm_compute; repeat constructor).
  split; [exact Hin|]. split; [lia|]. split; [lia|].
  eexists. split; [reflexivity|]. split; [exact Hpos|].
  apply (preresnet_output_shape 18 [2; 2; 2; 2] true float_1_0
           (mk_net_kwargs None None) _ 1 224 224 Hin eq_refl Hpos);
    (reflexivity || lia).
Defined.

(** X13. The final pool has a fixed 7 by 7 window: under the same shape
    rules, a network that [get_preresnet] returns refuses images of 225
    to 256 pixels a side, unless its last stage has no channels.  The
    stages leave 8 by 8, the pool 2 by 2, and the classifier is given four
    times the width it was built for. *)
Theorem preresnet_refuses_larger_input (blocks : Z) (layers : list Z)
  (conv1_stride : bool) (width_scale : float) (kwargs : net_kwargs)
  (net : PreResNet.t) (n h w : Z) :
  In (blocks, layers) layers_table ->
  get_preresnet blocks conv1_stride width_scale false kwargs = Return net ->
  Linear.in_features (PreResNet.output net) <> 0 ->
  225 <= h <= 256 -> 225 <= w <= 256 ->
  net_value (N := shape_ops) net
    (Some [n; default 3 (kw_in_channels kwargs); h; w])
  = None.
Proof.
  intros Hin Hnet Hwidth Hh Hw.
  destruct (get_preresnet_returns _ _ _ _ _ _ Hin Hnet)
    as (channels & n0 & -> & Hlen).
  rewrite PreResNet_init_closed in Hwidth.
  cbn [PreResNet.output Linear.in_features] in Hwidth.
  rewrite net_shape;
    rewrite ?(table_extent _ _ _ _ Hin Hlen), ?five_halvings_8
      by assumption; try lia.
  change ((8 - 6) * ((8 - 6) * 1)) with 4.
  destruct (Z.eqb_spec (net_end n0 channels * 4) (net_end n0 channels));
    [lia | reflexivity].
Qed.

Lemma preresnet_refuses_larger_input_witness :
  In (18, [2; 2; 2; 2]) layers_table
  /\ 225 <= 256 <= 256
  /\ exists net,
       get_preresnet 18 true float_1_0 false (mk_net_kwargs None None)
       = Return net
       /\ Linear.in_features (PreResNet.output net) <> 0
       /\ net_value (N := shape_ops) net (Some [1; 3; 256; 256]) = None.
Proof.
  assert (Hin : In (18, [2; 2; 2; 2]) layers_table) by (simpl; tauto).
  assert (Hw : Linear.in_features
                 (PreResNet.output
                    (PreResNet.__init__ [[64; 64]; [128; 128]; [256; 256];
                                         [512; 512]] 64 false true 3 1000))
               <> 0) by (vm_compute; discriminate).
  split; [exact Hin|]. split; [lia|]. eexists. split; [reflexivity|].
  split; [exact Hw|].
  apply (preresnet_refuses_larger_input 18 [2; 2; 2; 2] true float_1_0
           (mk_net_kwargs None None) _ 1 256 256 Hin eq_refl Hw); lia.
Defined.

Lemma PreResNet_forward_runs_witness :
  (([Some [1; 3; 224; 224]] : list (option shape)) !! 0%nat
   = Some (Some [1; 3; 224; 224]))
  /\ exists y h',
       PreResNet.forward (H := shape_ops)
         (PreResNet.__init__ [[64]; [128]; [256]; [512]] 64 false true 3 10)
         0%nat [Some [1; 3; 224; 224]]
       = Some (y, h')
       /\ h' !! 0%nat = Some (Some [1; 3; 224; 224]).
Proof.
  split; [reflexivity|].
  destruct (PreResNet_forward_runs (N := shape_ops) [[64]; [128]; [256]; [512]]
              64 false true 3 10 [Some [1; 3; 224; 224]] 0%nat
              (Some [1; 3; 224; 224]) eq_refl)
    as (y & h' & Hrun & _ & Hkept).
  exists y, h'. split; [exact Hrun | exact Hkept].
Defined.

Example preresnet10_forward_shape :
  (PreResNet.forward (H := shape_ops)
     (PreResNet.__init__ [[64]; [128]; [256]; [512]] 64 false true 3 10)
     0%nat [Some [1; 3; 224; 224]]
   ≫= fun '(y, h') => h' !! y)
  = Some (Some [1; 10]).
Proof. reflexivity. Qed.

(** ** The block count as a depth *)

Lemma stage_units_body_convs b cs i l : forall j cin,
  length
    (concat (map (fun u => body_convs (PreResUnit.body u))
               (stage_units b cs i j cin l)))
  = ((if b then 3 else 2) * length l)%nat.
Proof.
  induction l as [|o l IH]; intros j cin; [destruct b; reflexivity|].
  cbn [stage_units map concat]. rewrite length_app, IH.
  clear IH.
  destruct b; cbn [PreResUnit.__init__ PreResUnit.body body_convs length];
    set (k := length l); clearbody k; lia.
Qed.

Lemma net_stages_body_convs b cs channels : forall i cin,
  length
    (concat (map (fun u => body_convs (PreResUnit.body u))
               (concat (net_stages b cs i cin channels))))
  = ((if b then 3 else 2) * sum_list (map length channels))%nat.
Proof.
  induction channels as [|l channels IH]; intros i cin;
    [destruct b; reflexivity|].
  cbn [net_stages concat map].
  rewrite map_app, concat_app, length_app, stage_units_body_convs, IH.
  clear IH. change (sum_list (length l :: map length channels))
    with (length l + sum_list (map length channels))%nat.
  set (k := length l). set (m := sum_list _). clearbody k m.
  destruct b; lia.
Qed.

(** X14. The block count is the depth of the main path: a network that
    [get_preresnet] returns for [blocks] has [blocks - 2] pre-activation
    convolutions in the bodies of its units, two per plain unit and three
    per bottleneck; the init convolution and the classifier make up the
    rest. *)
Theorem blocks_is_depth (blocks : Z) (layers : list Z) (conv1_stride : bool)
  (width_scale : float) (kwargs : net_kwargs) (net : PreResNet.t) :
  In (blocks, layers) layers_table ->
  get_preresnet blocks conv1_stride width_scale false kwargs = Return net ->
  Z.of_nat
    (length
       (concat (map (fun u => body_convs (PreResUnit.body u))
                  (concat (PreResNet.stages (PreResNet.features net))))))
  + 2
  = blocks.
Proof.
  intros Hin Hnet.
  destruct (get_preresnet_returns _ _ _ _ _ _ Hin Hnet)
    as (channels & n0 & -> & Hlen).
  rewrite PreResNet_init_closed. cbn [PreResNet.stages PreResNet.features].
  rewrite net_stages_body_convs, Hlen.
  clear Hnet Hlen. table_cases Hin; reflexivity.
Qed.

Lemma blocks_is_depth_witness :
  In (101, [3; 4; 23; 3]) layers_table
  /\ exists net,
       get_preresnet 101 true float_1_0 false (mk_net_kwargs None None)
       = Return net
       /\ Z.of_nat
            (length
               (concat (map (fun u => body_convs (PreResUnit.body u))
                          (concat
                             (PreResNet.stages (PreResNet.features net))))))
          + 2
          = 101.
Proof.
  assert (Hin : In (101, [3; 4; 23; 3]) layers_table) by (simpl; tauto).
  split; [exact Hin|]. eexists. split; [reflexivity|].
  apply (blocks_is_depth 101 [3; 4; 23; 3] true float_1_0
           (mk_net_kwargs None None) _ Hin eq_refl).
Defined.

(** ** The exceptions of the factory *)

Lemma comprehension_raise {A B : Type} (f : A -> result B) l e :
  comprehension f l = Raise e -> exists x, In x l /\ f x = Raise e.
Proof.
  induction l as [|x l IH]; [discriminate|]. cbn [comprehension].
  destruct (f x) as [y|e'] eqn:Hx; cbn [mbind result_bind].
  - destruct (comprehension f l) as [ys|e'] eqn:Hl; cbn [mbind result_bind];
      [discriminate|].
    intros [= <-]. destruct (IH eq_refl) as (x' & Hin & Hx').
    exists x'. split; [right; exact Hin | exact Hx'].
  - intros [= <-]. exists x. split; [left; reflexivity | exact Hx].
Qed.

Lemma In_list_repeat {A : Type} (x c : A) n : In x (list_repeat c n) -> x = c.
Proof.
  unfold list_repeat. induction (Z.to_nat n) as [|k IH]; [contradiction|].
  intros [<-|Hin]; [reflexivity | apply IH, Hin].
Qed.

Lemma In_zip_with_list_repeat (cs ls : list Z) l :
  In l (zip_with list_repeat cs ls) ->
  exists c k, In c cs /\ l = list_repeat c k.
Proof.
  revert ls. induction cs as [|c cs IH]; intros [|k ls] Hin;
    try contradiction.
  destruct Hin as [<-|Hin].
  - exists c, k. split; [left; reflexivity | reflexivity].
  - destruct (IH ls Hin) as (c' & k' & Hc & ->).
    exists c', k'. split; [right; exact Hc | reflexivity].
Qed.

Lemma scaled_width_raise ws c e :
  scaled_width ws c = Raise e ->
  (exists f, float_of_int c = Return f) ->
  e = ValueError "cannot convert float NaN to integer"
  \/ e = OverflowError "cannot convert float infinity to integer".
Proof.
  unfold scaled_width, int_mul_float. intros He [f Hf]. rewrite Hf in He.
  cbn [mbind result_bind] in He.
  destruct (float_mul f ws); simpl in He; try discriminate;
    injection He as <-; auto.
Qed.

Lemma base_width_converts blocks c :
  In c (64 :: base_widths blocks) -> exists f, float_of_int c = Return f.
Proof.
  unfold base_widths. destruct (blocks <? 50); simpl;
    intros H; repeat (destruct H as [<-|H]; [eexists; reflexivity|]);
    contradiction.
Qed.

(** X15. The statements of [get_preresnet] that come before the
    construction [PreResNet(...)] raise nothing but four exceptions: the
    one for an unsupported block count, the one for pretrained weights, and
    the two of [int()] on a float, for NaN and for an infinity, which a
    width scale brings about.  ([Raise] is an exception of those statements;
    what the construction itself may raise is not part of the embedding.) *)
Theorem get_preresnet_exceptions (blocks : Z) (conv1_stride : bool)
  (width_scale : float) (pretrained : bool) (kwargs : net_kwargs) (e : exn) :
  get_preresnet blocks conv1_stride width_scale pretrained kwargs = Raise e ->
  e = UnsupportedConfiguration blocks
  \/ e = NotSupported
  \/ e = ValueError "cannot convert float NaN to integer"
  \/ e = OverflowError "cannot convert float infinity to integer".
Proof.
  destruct (in_dec Z.eq_dec blocks (map fst layers_table)) as [Hin|Hn];
    [|rewrite get_preresnet_unsupported by exact Hn; intros [= <-]; auto].
  apply in_map_iff in Hin as ([b layers] & <- & Hin).
  change ((b, layers).1) with b in *.
  rewrite (get_preresnet_supported _ _ _ _ _ _ Hin).
  assert (Hscaled : forall c e',
            In c (64 :: base_widths b) -> scaled_width width_scale c = Raise e' ->
            e' = ValueError "cannot convert float NaN to integer"
            \/ e' = OverflowError "cannot convert float infinity to integer").
  { intros c e' Hc He'.
    apply (scaled_width_raise _ _ _ He'), (base_width_converts b), Hc. }
  destruct (float_ne width_scale float_1_0).
  - destruct (comprehension _ _) as [channels|e'] eqn:Ec;
      cbn [mbind result_bind].
    + destruct (scaled_width width_scale 64) as [n0|e'] eqn:E0;
        cbn [mbind result_bind].
      * destruct pretrained; [intros [= <-]; auto | discriminate].
      * intros [= <-]. right. right.
        apply (Hscaled 64); [left; reflexivity | exact E0].
    + intros [= <-]. right. right.
      apply comprehension_raise in Ec as (l & Hl & El).
      apply comprehension_raise in El as (c & Hc & Ex).
      apply In_zip_with_list_repeat in Hl as (c' & k & Hc' & ->).
      apply In_list_repeat in Hc as ->.
      apply (Hscaled c'); [right; exact Hc' | exact Ex].
  - cbn [mbind result_bind].
    destruct pretrained; [intros [= <-]; auto | discriminate].
Qed.

Lemma get_preresnet_exceptions_witness :
  get_preresnet 34 true (dyadic 1 1020) false (mk_net_kwargs None None)
  = Raise (OverflowError "cannot convert float infinity to integer")
  /\ (OverflowError "cannot convert float infinity to integer"
      = UnsupportedConfiguration 34
      \/ OverflowError "cannot convert float infinity to integer"
         = NotSupported
      \/ OverflowError "cannot convert float infinity to integer"
         = ValueError "cannot convert float NaN to integer"
      \/ OverflowError "cannot convert float infinity to integer"
         = OverflowError "cannot convert float infinity to integer").
Proof.
  split; [reflexivity|].
  apply (get_preresnet_exceptions 34 true (dyadic 1 1020) false
           (mk_net_kwargs None None)).
  reflexivity.
Defined.
